(** * Overwatch agent: a shallow embedding of [agent/overwatch-agent.py]

    The agent is a single-threaded Python program whose every observable
    action is a call to a collaborator: the HTTP session ([requests]), the
    process launcher ([subprocess.run]), the metrics source ([psutil]), the
    clock ([time.time], [time.sleep]) and [sys.exit].  The embedding keeps
    the program text as it is and makes the collaborators explicit:

    - an environment [Env] answers every collaborator call, as a function of
      the whole history so far, and says how long the call blocks;
    - a [World] holds what the program can mutate or observe: the clock, the
      module-level [running] flag, the agent object's [agent_id], and the
      trace of collaborator calls made so far;
    - Python exceptions are values of [exn] threaded by a small state and
      error monad [M]; [try_except] is Python's [try ... except] with its
      first-match handler selection.

    Idealisations: the clock counts whole seconds ([Z], not a float); JSON
    values reaching the agent are objects whose fields are strings; a
    signal is noticed when the call during which it arrived returns.
    Logging is not modelled, except where evaluating the logged expression
    can raise. *)

From Stdlib Require Import ZArith QArith Ascii String List Lia.
From stdpp Require Import base option list gmap strings.
Import ListNotations.

Local Open Scope string_scope.
Local Open Scope Z_scope.

(** ** Module-level constants of the source *)

Definition VERSION : string := "1.0.0".
Definition HEARTBEAT_INTERVAL : Z := 30.
Definition METRICS_INTERVAL : Z := 30.
Definition SCRIPT_POLL_INTERVAL : Z := 10.

(** ** Values crossing the agent's boundary *)

(** A JSON object as Python's [dict]; field values are strings. *)
Abbreviation dict := (gmap string string).

(** What [resp.json()] can yield. *)
Inductive json :=
| JInvalid                      (* the body is not JSON: [json()] raises *)
| JObject (d : dict)            (* a JSON object *)
| JArray (l : list dict)        (* a JSON array of objects *)
| JOther.                       (* null, a number, a string, ... *)

Record response := Response {
  status_code : Z;
  resp_body : json;
  resp_text : string
}.

(** The float [a / b] of two integers, kept as its operands: Python's
    true division rounds to a double, and nothing is assumed about it. *)
Record quotient := Quotient {
  dividend : Z;
  divisor : Z
}.

(** The [metrics] dictionary built by [collect_and_push_metrics].  A float
    that a collaborator returns is the rational it denotes; a quotient the
    agent computes is a [quotient]. *)
Record metrics := Metrics {
  cpu_percent : Q;
  memory_percent : Q;
  memory_used_mb : quotient;
  memory_total_mb : quotient;
  disk_percent : Q;
  disk_used_gb : quotient;
  disk_total_gb : quotient;
  network_in_bytes : Z;
  network_out_bytes : Z;
  load_average_1m : Q;
  load_average_5m : Q;
  load_average_15m : Q;
  uptime_seconds : Z
}.

(** What the [psutil] and [os] calls of one metrics collection return. *)
Record raw_sample := RawSample {
  raw_cpu : Q;                      (* psutil.cpu_percent(interval=1) *)
  raw_mem_percent : Q;              (* psutil.virtual_memory() *)
  raw_mem_used : Z;
  raw_mem_total : Z;
  raw_disk_percent : Q;             (* psutil.disk_usage("/") *)
  raw_disk_used : Z;
  raw_disk_total : Z;
  raw_bytes_recv : Z;               (* psutil.net_io_counters() *)
  raw_bytes_sent : Z;
  raw_loadavg : option (Q * Q * Q)  (* os.getloadavg, when the OS has it *)
}.

(** The five HTTP calls of the agent.  A constructor stands for the verb,
    the path under [server_url] and the JSON body; see [endpoint]. *)
Inductive request :=
| RegisterReq (token hostname os_type agent_version : string)
| HeartbeatReq (agent_version : string) (uptime : Z)
| MetricsReq (m : metrics)
| ScriptsReq
| ResultReq (execution_id : string) (exit_code : Z)
            (stdout : string) (stderr : option string).

Inductive verb := GET | POST.

Definition endpoint (server_url : string) (r : request) : verb * string :=
  match r with
  | RegisterReq _ _ _ _ => (POST, server_url ++ "/api/v1/agent/register")
  | HeartbeatReq _ _ => (POST, server_url ++ "/api/v1/agent/heartbeat")
  | MetricsReq _ => (POST, server_url ++ "/api/v1/agent/metrics")
  | ScriptsReq => (GET, server_url ++ "/api/v1/agent/scripts")
  | ResultReq execution_id _ _ _ =>
      (POST, server_url ++ "/api/v1/agent/scripts/" ++ execution_id ++ "/result")
  end.

(** ** Exceptions *)

Inductive exn_class :=
| TimeoutExpired       (* subprocess.TimeoutExpired *)
| KeyError
| OtherException       (* any other subclass of Exception *)
| SystemExit (code : Z).   (* raised by sys.exit; not an Exception *)

Record exn := Exn { exn_cls : exn_class; exn_str : string }.

(** [isinstance(e, Exception)] *)
Definition is_Exception (e : exn) : bool :=
  match exn_cls e with SystemExit _ => false | _ => true end.

(** [isinstance(e, subprocess.TimeoutExpired)] *)
Definition is_TimeoutExpired (e : exn) : bool :=
  match exn_cls e with TimeoutExpired => true | _ => false end.

(** ** Collaborator answers *)

Inductive http_outcome :=
| HttpRaises (msg : string)       (* transport error: requests raises *)
| HttpReturns (r : response).

Inductive proc_behaviour :=
| ProcRaises (msg : string)       (* e.g. interpreter not found *)
| ProcRuns (duration : Z) (returncode : Z) (out err : string).

Inductive sample_outcome :=
| SampleRaises (msg : string)
| SampleReturns (s : raw_sample).

Record CompletedProcess := Completed {
  returncode : Z;
  cp_stdout : string;
  cp_stderr : string
}.

(** ** The world and its trace *)

Inductive event :=
| EHttp (t : Z) (r : request) (o : http_outcome)
| ESubprocess (t : Z) (argv : list string) (timeout : Z)
| ESample (t : Z)
| ESleep (t : Z) (secs : Z)
| EExit (t : Z) (code : Z).

Record World := mkWorld {
  clock : Z;                 (* what time.time() reads *)
  running : bool;            (* the module-level flag *)
  agent_id : option string;  (* self.agent_id; None is Python's None *)
  trace : list event         (* collaborator calls so far, oldest first *)
}.

Record Env := mkEnv {
  cfg_token : string;            (* --token *)
  cfg_server_url : string;       (* --url *)
  platform_node : string;        (* platform.node() *)
  sys_platform : string;
  sys_executable : string;
  boot_time : Z;                 (* psutil.boot_time() *)
  http : World -> request -> http_outcome * Z;
  proc : World -> list string -> proc_behaviour;
  sample : World -> sample_outcome * Z;
  sigterm : option Z             (* arrival time of SIGTERM or SIGINT *)
}.

(** ** The state and error monad *)

Inductive result (A : Type) :=
| Ok (a : A)
| Raise (e : exn)
| OutOfFuel.
Arguments Ok {A} a.
Arguments Raise {A} e.
Arguments OutOfFuel {A}.

Definition M (A : Type) : Type := World -> result A * World.

Definition ret {A} (a : A) : M A := fun w => (Ok a, w).

Definition raise {A} (e : exn) : M A := fun w => (Raise e, w).

Definition bind {A B} (m : M A) (f : A -> M B) : M B :=
  fun w =>
    match m w with
    | (Ok a, w') => f a w'
    | (Raise e, w') => (Raise e, w')
    | (OutOfFuel, w') => (OutOfFuel, w')
    end.

Notation "x <- c1 ;; c2" := (bind c1 (fun x => c2))
  (at level 100, c1 at next level, right associativity).
Notation "c1 ;;; c2" := (bind c1 (fun _ => c2))
  (at level 100, right associativity).

(** Python's [try: body except C1: h1 except C2: h2]: the first clause whose
    class matches handles the exception; an exception raised by a handler
    is not handled by its siblings. *)
Fixpoint select_handler {A} (hs : list ((exn -> bool) * (exn -> M A)))
    (e : exn) : M A :=
  match hs with
  | [] => raise e
  | (matches, h) :: hs' => if matches e then h e else select_handler hs' e
  end.

Definition try_except {A} (body : M A)
    (hs : list ((exn -> bool) * (exn -> M A))) : M A :=
  fun w =>
    match body w with
    | (Raise e, w') => select_handler hs e w'
    | other => other
    end.

(** [for x in xs: body(x)] *)
Fixpoint for_each {A} (xs : list A) (body : A -> M unit) : M unit :=
  match xs with
  | [] => ret tt
  | x :: xs' => body x ;;; for_each xs' body
  end.

(** ** Python helpers *)

(** [s[:n]] on a string, for a bound [n] that is not negative *)
Definition slice_to (n : Z) (s : string) : string :=
  String.substring 0 (Z.to_nat n) s.

(** Truthiness of a string: [if s] *)
Definition truthy (s : string) : bool :=
  match s with EmptyString => false | _ => true end.

(** [x in (a, b, ...)] on strings *)
Definition in_tuple (x : string) (t : list string) : bool :=
  existsb (String.eqb x) t.

(** [d[k]]: raises KeyError when the key is absent. *)
Definition getitem (d : dict) (k : string) : M string :=
  match d !! k with
  | Some v => ret v
  | None => raise (Exn KeyError ("'" ++ k ++ "'"))
  end.

(** [resp.json()] *)
Definition resp_json (r : response) : M json :=
  match resp_body r with
  | JInvalid => raise (Exn OtherException "Expecting value: line 1 column 1 (char 0)")
  | j => ret j
  end.

(** [data.get(k)]: only a dict has [get]. *)
Definition json_get (data : json) (k : string) : M (option string) :=
  match data with
  | JObject d => ret (d !! k)
  | _ => raise (Exn OtherException "object has no attribute 'get'")
  end.

(** The items a [for] loop over a decoded body visits.  Over an array they
    are its objects.  Over anything else the loop either does not start or
    raises before any collaborator is called (iterating a dict yields its
    keys, and indexing a key with a string raises TypeError). *)
Definition json_iter (data : json) : M (list dict) :=
  match data with
  | JArray l => ret l
  | JObject d =>
      if decide (d = ∅) then ret []
      else raise (Exn OtherException "string indices must be integers")
  | _ => raise (Exn OtherException "object is not iterable")
  end.

(** ** The signal handler *)

(** [signal_handler]: sets the module-level flag. *)
Definition signal_handler (w : World) : World :=
  mkWorld (clock w) false (agent_id w) (trace w).

(** ** Calls that need no collaborator answer *)

(** Append a call to the trace. *)
Definition log (e : event) (w : World) : World :=
  mkWorld (clock w) (running w) (agent_id w) (trace w ++ [e])%list.

(** [time.time()] *)
Definition time_time : M Z := fun w => (Ok (clock w), w).

(** [sys.exit(code)] *)
Definition sys_exit {A} (code : Z) : M A :=
  fun w => (Raise (Exn (SystemExit code) ""), log (EExit (clock w) code) w).

(** [self.agent_id = a] *)
Definition set_agent_id (a : option string) : M unit :=
  fun w => (Ok tt, mkWorld (clock w) (running w) a (trace w)).

Section Agent.

Variable env : Env.

(** ** Collaborator calls *)

(** Let [d] seconds pass; a signal that has arrived by then has run
    [signal_handler].  The handler's run is placed at the end of the call
    that took the [d] seconds: what the program does between two calls
    takes no time here. *)
Definition advance (d : Z) (w : World) : World :=
  let w' := mkWorld (clock w + d) (running w) (agent_id w) (trace w) in
  match sigterm env with
  | Some t => if t <=? clock w' then signal_handler w' else w'
  | None => w'
  end.

(** [time.sleep(secs)] *)
Definition time_sleep (secs : Z) : M unit :=
  fun w => (Ok tt, advance secs (log (ESleep (clock w) secs) w)).

(** [self.session.post(url, json=...)] and [self.session.get(url)] *)
Definition session_request (r : request) : M response :=
  fun w =>
    let '(o, d) := http env w r in
    let w' := advance d (log (EHttp (clock w) r o) w) in
    match o with
    | HttpRaises msg => (Raise (Exn OtherException msg), w')
    | HttpReturns resp => (Ok resp, w')
    end.

(** [subprocess.run(argv, capture_output=True, text=True, timeout=...)]:
    a child that is still running when the timeout expires is killed and
    TimeoutExpired is raised. *)
Definition subprocess_run (argv : list string) (timeout : Z)
    : M CompletedProcess :=
  fun w =>
    let w0 := log (ESubprocess (clock w) argv timeout) w in
    match proc env w argv with
    | ProcRaises msg => (Raise (Exn OtherException msg), w0)
    | ProcRuns d rc out err =>
        if timeout <? d
        then (Raise (Exn TimeoutExpired "timed out"), advance timeout w0)
        else (Ok (Completed rc out err), advance d w0)
    end.

(** The [psutil] and [os.getloadavg] calls of one collection. *)
Definition psutil_sample : M raw_sample :=
  fun w =>
    let '(o, d) := sample env w in
    let w' := advance d (log (ESample (clock w)) w) in
    match o with
    | SampleRaises msg => (Raise (Exn OtherException msg), w')
    | SampleReturns s => (Ok s, w')
    end.

(** ** class OverwatchAgent *)

Definition os_type : string :=
  if String.prefix "linux" (sys_platform env) then "linux" else "windows".

Definition register : M bool :=
  try_except
    (resp <- session_request
               (RegisterReq (cfg_token env) (platform_node env) os_type VERSION) ;;
     if status_code resp =? 200 then
       data <- resp_json resp ;;
       a <- json_get data "agent_id" ;;
       set_agent_id a ;;;
       ret true
     else
       ret false)
    [(is_Exception, fun _ => ret false)].

Definition heartbeat : M unit :=
  try_except
    (now <- time_time ;;
     session_request (HeartbeatReq VERSION (now - boot_time env)) ;;;
     ret tt)
    [(is_Exception, fun _ => ret tt)].

Definition build_metrics (s : raw_sample) (now : Z) : metrics :=
  let load := match raw_loadavg s with
              | Some l => l
              | None => (0, 0, 0)%Q
              end in
  {| cpu_percent := raw_cpu s;
     memory_percent := raw_mem_percent s;
     memory_used_mb := Quotient (raw_mem_used s) (1024 * 1024);
     memory_total_mb := Quotient (raw_mem_total s) (1024 * 1024);
     disk_percent := raw_disk_percent s;
     disk_used_gb := Quotient (raw_disk_used s) (1024 ^ 3);
     disk_total_gb := Quotient (raw_disk_total s) (1024 ^ 3);
     network_in_bytes := raw_bytes_recv s;
     network_out_bytes := raw_bytes_sent s;
     load_average_1m := load.1.1;
     load_average_5m := load.1.2;
     load_average_15m := load.2;
     uptime_seconds := now - boot_time env |}.

Definition collect_and_push_metrics : M unit :=
  try_except
    (s <- psutil_sample ;;
     now <- time_time ;;
     session_request (MetricsReq (build_metrics s now)) ;;;
     ret tt)
    [(is_Exception, fun _ => ret tt)].

(** The interpreter launched for a script type: the [if]/[elif] chain of
    [_execute_script]. *)
Definition run_interpreter (script_type content : string) : M CompletedProcess :=
  if in_tuple script_type ["bash"; "shell"] then
    subprocess_run ["bash"; "-c"; content] 300
  else if String.eqb script_type "powershell" then
    subprocess_run ["powershell"; "-Command"; content] 300
  else if String.eqb script_type "python" then
    subprocess_run [sys_executable env; "-c"; content] 300
  else
    subprocess_run ["bash"; "-c"; content] 300.

(** [script.get("script_type", "bash")] *)
Definition script_type_of (script : dict) : string :=
  default "bash" (script !! "script_type").

Definition _execute_script (script : dict) : M unit :=
  execution_id <- getitem script "execution_id" ;;
  content <- getitem script "content" ;;
  let script_type := script_type_of script in
  getitem script "script_name" ;;;
  try_except
    (result <- run_interpreter script_type content ;;
     session_request
       (ResultReq execution_id (returncode result)
          (slice_to 50000 (cp_stdout result))
          (if truthy (cp_stderr result)
           then Some (slice_to 10000 (cp_stderr result)) else None)) ;;;
     ret tt)
    [(is_TimeoutExpired, fun _ =>
        session_request
          (ResultReq execution_id (-1) "" (Some "Execution timed out")) ;;;
        ret tt);
     (is_Exception, fun e =>
        session_request
          (ResultReq execution_id (-1) "" (Some (exn_str e))) ;;;
        ret tt)].

Definition poll_and_execute_scripts : M unit :=
  try_except
    (resp <- session_request ScriptsReq ;;
     if negb (status_code resp =? 200) then
       ret tt
     else
       scripts <- resp_json resp ;;
       items <- json_iter scripts ;;
       for_each items _execute_script)
    [(is_Exception, fun _ => ret tt)].

(** The three local variables of [run]. *)
Record DutySchedule := Schedule {
  last_heartbeat : Z;
  last_metrics : Z;
  last_script_poll : Z
}.

(** One iteration of the body of [while running], without the final sleep. *)
Definition tick (s : DutySchedule) : M DutySchedule :=
  now <- time_time ;;
  s1 <- (if now - last_heartbeat s >=? HEARTBEAT_INTERVAL then
           heartbeat ;;;
           ret (Schedule now (last_metrics s) (last_script_poll s))
         else ret s) ;;
  s2 <- (if now - last_metrics s1 >=? METRICS_INTERVAL then
           collect_and_push_metrics ;;;
           ret (Schedule (last_heartbeat s1) now (last_script_poll s1))
         else ret s1) ;;
  s3 <- (if now - last_script_poll s2 >=? SCRIPT_POLL_INTERVAL then
           poll_and_execute_scripts ;;;
           ret (Schedule (last_heartbeat s2) (last_metrics s2) now)
         else ret s2) ;;
  ret s3.

(** [while running: ...]; the fuel bounds the number of iterations. *)
Fixpoint run_loop (fuel : nat) (s : DutySchedule) : M unit :=
  fun w =>
    if running w then
      match fuel with
      | O => (OutOfFuel, w)
      | S fuel' =>
          (s' <- tick s ;;
           time_sleep 1 ;;;
           run_loop fuel' s') w
      end
    else (Ok tt, w).

Definition run (fuel : nat) : M unit :=
  ok <- register ;;
  (if negb ok then
     time_sleep 30 ;;;
     ok2 <- register ;;
     if negb ok2 then sys_exit 1 else ret tt
   else ret tt) ;;;
  run_loop fuel (Schedule 0 0 0).

(** The exit status of the process whose [main] is [agent.run()]: 0 when
    [run] returns, the argument of [sys.exit] when it was called, 1 for any
    other uncaught exception. *)
Definition exit_status (r : result unit) : option Z :=
  match r with
  | Ok _ => Some 0
  | Raise e => match exn_cls e with SystemExit c => Some c | _ => Some 1 end
  | OutOfFuel => None
  end.

End Agent.

(** The world at process start: the flag is True and [agent_id] is None. *)
Definition initial_world (t0 : Z) : World := mkWorld t0 true None [].

(** * Vocabulary of the properties *)

(** A result that an [except Exception] clause turns into a normal one. *)
Definition catchable {A} (r : result A) : Prop :=
  match r with
  | Ok _ => True
  | Raise e => is_Exception e = true
  | OutOfFuel => False
  end.

(** A computation that neither exits the process nor runs out of fuel. *)
Definition safe {A} (m : M A) : Prop := forall w, catchable (m w).1.

(** A computation that always returns normally. *)
Definition total {A} (m : M A) : Prop := forall w, exists a w', m w = (Ok a, w').

(** The command line [run_interpreter] launches. *)
Definition interpreter_argv (env : Env) (script_type content : string)
    : list string :=
  if in_tuple script_type ["bash"; "shell"] then ["bash"; "-c"; content]
  else if String.eqb script_type "powershell" then ["powershell"; "-Command"; content]
  else if String.eqb script_type "python" then [sys_executable env; "-c"; content]
  else ["bash"; "-c"; content].

(** The ScriptResult a process behaviour leads to, as the three branches
    of [_execute_script] build it. *)
Definition result_of_run (execution_id : string) (rc : Z) (out err : string)
    : request :=
  ResultReq execution_id rc (slice_to 50000 out)
    (if truthy err then Some (slice_to 10000 err) else None).

Definition result_of_timeout (execution_id : string) : request :=
  ResultReq execution_id (-1) "" (Some "Execution timed out").

Definition result_of_failure (execution_id msg : string) : request :=
  ResultReq execution_id (-1) "" (Some msg).

(** The world after one HTTP call answered by [o] after [d] seconds. *)
Definition after_http (env : Env) (r : request) (o : http_outcome) (d : Z)
    (w : World) : World :=
  advance env d (log (EHttp (clock w) r o) w).

(** The world once a child has been launched at [w]. *)
Definition launched (argv : list string) (w : World) : World :=
  log (ESubprocess (clock w) argv 300) w.

(** The calls made between two worlds of one execution. *)
Definition events_since (w w' : World) : list event :=
  drop (length (trace w)) (trace w').

(** The ScriptResults handed to the session, oldest first. *)
Fixpoint report_requests (tr : list event) : list request :=
  match tr with
  | [] => []
  | EHttp _ (ResultReq i rc out err) _ :: tr' =>
      ResultReq i rc out err :: report_requests tr'
  | _ :: tr' => report_requests tr'
  end.

(** A task that carries the three keys [_execute_script] indexes. *)
Definition has_keys (script : dict) (execution_id content script_name : string)
    : Prop :=
  script !! "execution_id" = Some execution_id
  /\ script !! "content" = Some content
  /\ script !! "script_name" = Some script_name.

(** The three outcomes of an execution and the ScriptResult of each. *)
Definition report_for_behaviour (execution_id : string) (b : proc_behaviour)
    : request :=
  match b with
  | ProcRaises msg => result_of_failure execution_id msg
  | ProcRuns d rc out err =>
      if 300 <? d then result_of_timeout execution_id
      else result_of_run execution_id rc out err
  end.

(** The execution did not complete: it timed out or could not be launched. *)
Definition not_completed (b : proc_behaviour) : Prop :=
  match b with
  | ProcRaises _ => True
  | ProcRuns d _ _ _ => 300 < d
  end.

(** No report-result request for [execution_id] raises. *)
Definition reports_delivered (env : Env) (execution_id : string) : Prop :=
  forall w rc out err,
    exists resp d, http env w (ResultReq execution_id rc out err)
                   = (HttpReturns resp, d).

(** Exactly one ScriptResult, carrying [execution_id], was handed to the
    session while [script] was executed at [w]. *)
Definition exactly_one_result (env : Env) (script : dict)
    (execution_id : string) (w : World) : Prop :=
  exists rc out err,
    report_requests (events_since w (_execute_script env script w).2)
    = [ResultReq execution_id rc out err].

(** ** Scenario building blocks *)

Definition sample0 : raw_sample :=
  RawSample 0 0 0 1 0 0 1 0 0 (Some (0, 0, 0)%Q).

Definition scenario_env
    (http : World -> request -> http_outcome * Z)
    (proc : World -> list string -> proc_behaviour)
    (sigterm : option Z) : Env :=
  mkEnv "secret" "https://overwatch.example.com" "host01" "linux"
        "/usr/bin/python3" 0 http proc
        (fun _ => (SampleReturns sample0, 0)) sigterm.

Definition ok_response : response := Response 200 (JObject ∅) "".

(** A server that answers every call with 200 and an empty object. *)
Definition http_ok (w : World) (r : request) : http_outcome * Z :=
  (HttpReturns ok_response, 0).

(** A channel on which every call raises. *)
Definition http_down (w : World) (r : request) : http_outcome * Z :=
  (HttpRaises "Connection refused", 0).

(** A child that prints ok and exits with 0 after one second. *)
Definition proc_ok (w : World) (argv : list string) : proc_behaviour :=
  ProcRuns 1 0 "ok" "".

(** A child that would run for ten minutes. *)
Definition proc_hangs (w : World) (argv : list string) : proc_behaviour :=
  ProcRuns 600 0 "partial output" "partial errors".

Definition task1 : dict :=
  {[ "execution_id" := "e1"; "script_name" := "probe";
     "content" := "echo ok"; "script_type" := "bash" ]}.

Definition task2 : dict :=
  {[ "execution_id" := "e2"; "script_name" := "probe2";
     "content" := "echo again" ]}.

(** A Python task. *)
Definition task_python : dict :=
  {[ "execution_id" := "e3"; "script_name" := "py";
     "content" := "print(1)"; "script_type" := "python" ]}.

Definition w0 : World := initial_world 1700000000.

(** The server answers, the child prints ok. *)
Definition env_ok : Env := scenario_env http_ok proc_ok None.

(** The child prints ok, but the channel is down when the result is sent. *)
Definition env_lossy : Env := scenario_env http_down proc_ok None.

(** The child outlives the timeout. *)
Definition env_hangs : Env := scenario_env http_ok proc_hangs None.










(** The timestamps after an iteration that read [now] from the clock:
    every duty that was due is stamped with [now]. *)
Definition stamp (now : Z) (s : DutySchedule) : DutySchedule :=
  Schedule
    (if now - last_heartbeat s >=? HEARTBEAT_INTERVAL then now
     else last_heartbeat s)
    (if now - last_metrics s >=? METRICS_INTERVAL then now
     else last_metrics s)
    (if now - last_script_poll s >=? SCRIPT_POLL_INTERVAL then now
     else last_script_poll s).

(** The world after an iteration started at [w]: the duties that were due
    have run, in the order heartbeat, metrics, script poll. *)
Definition tick_world (env : Env) (s : DutySchedule) (w : World) : World :=
  let now := clock w in
  let w1 := if now - last_heartbeat s >=? HEARTBEAT_INTERVAL
            then (heartbeat env w).2 else w in
  let w2 := if now - last_metrics s >=? METRICS_INTERVAL
            then (collect_and_push_metrics env w1).2 else w1 in
  if now - last_script_poll s >=? SCRIPT_POLL_INTERVAL
  then (poll_and_execute_scripts env w2).2 else w2.

(** A computation that moves every world along a relation [R]. *)
Definition respects (R : World -> World -> Prop) {A} (m : M A) : Prop :=
  forall w, R w (m w).2.

(** [w'] has the calls of [w] and possibly more. *)
Definition extends (w w' : World) : Prop := trace w `prefix_of` trace w'.


(** The first collaborator call of each duty. *)
Definition is_heartbeat_call (e : event) : bool :=
  match e with EHttp _ (HeartbeatReq _ _) _ => true | _ => false end.

Definition is_metrics_collection (e : event) : bool :=
  match e with ESample _ => true | _ => false end.

Definition is_script_poll (e : event) : bool :=
  match e with EHttp _ ScriptsReq _ => true | _ => false end.

(** Between [w] and [w'] a call recognised by [p] was made. *)
Definition attempted (p : event -> bool) (w w' : World) : Prop :=
  existsb p (events_since w w') = true.

(** ** Registration *)

(** The request [register] sends. *)
Definition register_request (env : Env) : request :=
  RegisterReq (cfg_token env) (platform_node env) (os_type env) VERSION.

(** The answers on which [register] returns True: status 200 with a JSON
    object as body. *)
Definition accepted (o : http_outcome) : bool :=
  match o with
  | HttpRaises _ => false
  | HttpReturns r =>
      (status_code r =? 200)
      && match resp_body r with JObject _ => true | _ => false end
  end.

(** What [data.get("agent_id")] finds in an accepted answer. *)
Definition parsed_agent_id (o : http_outcome) : option string :=
  match o with
  | HttpReturns r =>
      match resp_body r with JObject d => d !! "agent_id" | _ => None end
  | HttpRaises _ => None
  end.

(** The world after [register] ran at [w]. *)
Definition registered_world (env : Env) (w : World) : World :=
  let '(o, d) := http env w (register_request env) in
  let w1 := after_http env (register_request env) o d w in
  if accepted o
  then mkWorld (clock w1) (running w1) (parsed_agent_id o) (trace w1)
  else w1.

(** A duty call: anything but register, sleep and exit. *)
Definition is_duty_call (e : event) : bool :=
  match e with
  | EHttp _ (RegisterReq _ _ _ _) _ => false
  | EHttp _ _ _ => true
  | ESubprocess _ _ _ => true
  | ESample _ => true
  | ESleep _ _ => false
  | EExit _ _ => false
  end.

Definition registration_succeeded (e : event) : bool :=
  match e with
  | EHttp _ (RegisterReq _ _ _ _) o => accepted o
  | _ => false
  end.

(** Every duty call of the trace comes after an accepted register call;
    [registered] says whether one was seen before the trace starts. *)
Fixpoint registered_before_duties (registered : bool) (tr : list event) : bool :=
  match tr with
  | [] => true
  | e :: tr' =>
      if is_duty_call e
      then registered && registered_before_duties registered tr'
      else registered_before_duties
             (registered || registration_succeeded e) tr'
  end.

(** A successful [register] leaves an agent_id. *)
Definition register_yields_identity (env : Env) (w : World) : Prop :=
  forall w', register env w = (Ok true, w') -> is_Some (agent_id w').

(** Whenever a run made a duty call, the agent holds an agent_id. *)
Definition no_duty_without_identity (env : Env) (fuel : nat) (w : World) : Prop :=
  let w' := (run env fuel w).2 in
  existsb is_duty_call (trace w') = true -> is_Some (agent_id w').

(** The server accepts, the child prints ok, and a signal arrives five
    seconds after the start of [w0]. *)
Definition env_ok_5s : Env :=
  scenario_env http_ok proc_ok (Some (clock w0 + 5)).

(** The channel is down throughout. *)
Definition env_down : Env := scenario_env http_down proc_ok None.

(** ** Time and the shutdown signal *)

(** No collaborator call takes a negative time. *)
Definition nonneg_durations (env : Env) : Prop :=
  (forall w r, 0 <= (http env w r).2)
  /\ (forall w argv d rc out err,
        proc env w argv = ProcRuns d rc out err -> 0 <= d)
  /\ (forall w, 0 <= (sample env w).2).

(** A signal that has arrived by the time the clock shows has been
    handled: the flag is down. *)
Definition flagged (env : Env) (w : World) : Prop :=
  match sigterm env with
  | Some t => t <= clock w -> running w = false
  | None => True
  end.

(** Time does not go back, and a handled signal stays handled. *)
Definition forward (env : Env) (w w' : World) : Prop :=
  clock w <= clock w' /\ (flagged env w -> flagged env w').

(** The flag is lowered by the handler only. *)
Definition handled (env : Env) (w w' : World) : Prop :=
  running w' = false -> running w = false \/ is_Some (sigterm env).

(** The world after [time.sleep(secs)] at [w]. *)
Definition slept (env : Env) (secs : Z) (w : World) : World :=
  advance env secs (log (ESleep (clock w) secs) w).

(** ** Batches of tasks *)

(** A task with the three keys [_execute_script] indexes. *)
Definition well_formed (task : dict) : Prop :=
  exists eid content name, has_keys task eid content name.

(** The calls [evs] are, task by task and in the order of [tasks], the
    launch of the task's interpreter followed by the report of a result
    under the task's execution id, and nothing else. *)
Fixpoint executed_in_order (env : Env) (tasks : list dict) (evs : list event)
    : Prop :=
  match tasks, evs with
  | [], [] => True
  | task :: tasks',
    ESubprocess _ argv _ :: EHttp _ (ResultReq eid _ _ _) _ :: evs' =>
      task !! "execution_id" = Some eid
      /\ (exists content,
            task !! "content" = Some content
            /\ argv = interpreter_argv env (script_type_of task) content)
      /\ executed_in_order env tasks' evs'
  | _, _ => False
  end.

(** After its scripts request, a poll at [w] executed all of [tasks], in
    order. *)
Definition poll_executes_all (env : Env) (tasks : list dict) (w : World)
    : Prop :=
  exists o evs,
    events_since w (poll_and_execute_scripts env w).2
    = EHttp (clock w) ScriptsReq o :: evs
    /\ executed_in_order env tasks evs.

(** The server hands out [task1] and [task2]; every other call raises. *)
Definition http_tasks_then_down (w : World) (r : request) : http_outcome * Z :=
  match r with
  | ScriptsReq => (HttpReturns (Response 200 (JArray [task1; task2]) ""), 0)
  | _ => (HttpRaises "Connection reset", 0)
  end.

(** Two tasks are handed out, the first one hangs, and its report raises. *)
Definition env_batch_lossy : Env :=
  scenario_env http_tasks_then_down proc_hangs None.

(** The server hands out [task1] and [task2] and accepts every report. *)
Definition http_tasks (w : World) (r : request) : http_outcome * Z :=
  match r with
  | ScriptsReq => (HttpReturns (Response 200 (JArray [task1; task2]) ""), 0)
  | _ => (HttpReturns ok_response, 0)
  end.

Definition env_batch : Env := scenario_env http_tasks proc_ok None.

(** ** Translation in time *)

(** The same call, [k] seconds later. *)
Definition shift_event (k : Z) (e : event) : event :=
  match e with
  | EHttp t r o => EHttp (t + k) r o
  | ESubprocess t argv timeout => ESubprocess (t + k) argv timeout
  | ESample t => ESample (t + k)
  | ESleep t secs => ESleep (t + k) secs
  | EExit t code => EExit (t + k) code
  end.

Definition shift_world (k : Z) (w : World) : World :=
  mkWorld (clock w + k) (running w) (agent_id w)
          (map (shift_event k) (trace w)).

Definition shift_schedule (k : Z) (s : DutySchedule) : DutySchedule :=
  Schedule (last_heartbeat s + k) (last_metrics s + k) (last_script_poll s + k).

(** [env'] is [env] moved [k] seconds later: it answers at a shifted world
    what [env] answers at the original one, the host booted [k] seconds
    later, and the signal arrives [k] seconds later. *)
Record shifted (k : Z) (env env' : Env) : Prop := mkShifted {
  sh_token : cfg_token env' = cfg_token env;
  sh_node : platform_node env' = platform_node env;
  sh_platform : sys_platform env' = sys_platform env;
  sh_executable : sys_executable env' = sys_executable env;
  sh_boot : boot_time env' = boot_time env + k;
  sh_http : forall w r, http env' (shift_world k w) r = http env w r;
  sh_proc : forall w argv, proc env' (shift_world k w) argv = proc env w argv;
  sh_sample : forall w, sample env' (shift_world k w) = sample env w;
  sh_sigterm : sigterm env' = (fun t => t + k) <$> sigterm env
}.

Definition map_result {A} (f : A -> A) (r : result A) : result A :=
  match r with
  | Ok a => Ok (f a)
  | Raise e => Raise e
  | OutOfFuel => OutOfFuel
  end.

(** [m'] does at a shifted world what [m] does at the original one; values
    that are clock readings are moved by [f]. *)
Definition equivariant (k : Z) {A} (f : A -> A) (m m' : M A) : Prop :=
  forall w, m' (shift_world k w) = (map_result f (m w).1, shift_world k (m w).2).

(** At clock readings [now] and [now + k], the schedules [s] and [s'] make
    the same duties due, and agree up to [k] on the others. *)
Definition aligned (k now : Z) (s s' : DutySchedule) : Prop :=
  ((now - last_heartbeat s >=? HEARTBEAT_INTERVAL)
   = (now + k - last_heartbeat s' >=? HEARTBEAT_INTERVAL)
   /\ ((now - last_heartbeat s >=? HEARTBEAT_INTERVAL) = false ->
       last_heartbeat s' = last_heartbeat s + k))
  /\ ((now - last_metrics s >=? METRICS_INTERVAL)
      = (now + k - last_metrics s' >=? METRICS_INTERVAL)
      /\ ((now - last_metrics s >=? METRICS_INTERVAL) = false ->
          last_metrics s' = last_metrics s + k))
  /\ ((now - last_script_poll s >=? SCRIPT_POLL_INTERVAL)
      = (now + k - last_script_poll s' >=? SCRIPT_POLL_INTERVAL)
      /\ ((now - last_script_poll s >=? SCRIPT_POLL_INTERVAL) = false ->
          last_script_poll s' = last_script_poll s + k)).

(** ** The reference run *)

(** The one task of the reference run. *)
Definition reference_task : dict :=
  {[ "execution_id" := "e1"; "script_name" := "probe";
     "content" := "echo ok"; "script_type" := "bash" ]}.

(** The server of the reference run, started when the clock reads [t0]:
    it accepts the registration, hands out [reference_task] to the poll
    made ten seconds after the start and nothing to the others, and
    accepts everything else; every call returns at once. *)
Definition http_reference (t0 : Z) (w : World) (r : request)
    : http_outcome * Z :=
  match r with
  | RegisterReq _ _ _ _ =>
      (HttpReturns
         (Response 200
            (JObject {[ "agent_id" := "agent-7"; "server_name" := "srv" ]}) ""),
       0)
  | ScriptsReq =>
      (HttpReturns
         (Response 200
            (JArray (if clock w - t0 =? 10 then [reference_task] else [])) ""),
       0)
  | _ => (HttpReturns ok_response, 0)
  end.

(** The reference run: the script takes one second, exits with 0 and
    prints ok; collecting the metrics blocks for [window] seconds; the
    signal arrives 35 seconds after the start. *)
Definition reference_env_sampling (window t0 : Z) : Env :=
  mkEnv "secret" "https://overwatch.example.com" "host01" "linux"
        "/usr/bin/python3" (t0 - 3600) (http_reference t0) proc_ok
        (fun _ => (SampleReturns sample0, window)) (Some (t0 + 35)).

(** The reference run: collecting the metrics blocks for one second, the
    [interval=1] of [psutil.cpu_percent]. *)
Definition reference_env (t0 : Z) : Env := reference_env_sampling 1 t0.

(** The HTTP calls of a trace, by kind. *)
Inductive call :=
| CRegister
| CHeartbeat
| CMetrics
| CPoll
| CReport (execution_id : string) (exit_code : Z)
          (stdout : string) (stderr : option string).

Definition call_of (r : request) : call :=
  match r with
  | RegisterReq _ _ _ _ => CRegister
  | HeartbeatReq _ _ => CHeartbeat
  | MetricsReq _ => CMetrics
  | ScriptsReq => CPoll
  | ResultReq i rc out err => CReport i rc out err
  end.

(** The HTTP calls of a trace with their times, counted from [t0]. *)
Fixpoint calls_from (t0 : Z) (tr : list event) : list (Z * call) :=
  match tr with
  | [] => []
  | EHttp t r _ :: tr' => (t - t0, call_of r) :: calls_from t0 tr'
  | _ :: tr' => calls_from t0 tr'
  end.

(** The HTTP calls of the reference run started at clock reading [t0]. *)
Definition reference_calls_sampling (window t0 : Z) : list (Z * call) :=
  calls_from t0
    (trace (run (reference_env_sampling window t0) 40 (initial_world t0)).2).

Definition reference_calls (t0 : Z) : list (Z * call) :=
  reference_calls_sampling 1 t0.

(** The calls the specification expects. *)
Definition spec_calls : list (Z * call) :=
  [(0, CRegister);
   (10, CPoll); (11, CReport "e1" 0 "ok" None);
   (20, CPoll);
   (30, CHeartbeat); (30, CMetrics); (30, CPoll)].

(** The calls the agent makes on a wall clock: all three duties run in the
    first iteration, and the metrics push and the poll of an iteration
    that collects metrics come one second after its heartbeat. *)
Definition wall_clock_calls : list (Z * call) :=
  [(0, CRegister);
   (0, CHeartbeat); (1, CMetrics); (1, CPoll);
   (10, CPoll); (11, CReport "e1" 0 "ok" None);
   (20, CPoll);
   (30, CHeartbeat); (31, CMetrics); (31, CPoll)].

(** * Further vocabulary: the rest of the agent *)

(** ** Construction of the agent: [__init__] and [main] *)

(** [s.rstrip(c)] for a set of one character [c]: [s] without its
    trailing [c]s. *)
Fixpoint rstrip (c : ascii) (s : string) : string :=
  match s with
  | EmptyString => EmptyString
  | String a s' =>
      match rstrip c s' with
      | EmptyString =>
          if Ascii.eqb a c then EmptyString else String a EmptyString
      | String b r => String a (String b r)
      end
  end.

(** The attributes [__init__] sets; of the session only its [verify] flag
    is kept (its headers, the defaults of [requests.Session] with the two
    the agent adds, are not modelled). *)
Record OverwatchAgent := mkAgent {
  self_server_url : string;
  self_token : string;
  self_verify_ssl : bool;
  self_session_verify : bool;
  self_agent_id : option string
}.

Definition __init__ (server_url token : string) (verify_ssl : bool)
    : OverwatchAgent :=
  {| self_server_url := rstrip "/" server_url;
     self_token := token;
     self_verify_ssl := verify_ssl;
     self_session_verify := verify_ssl;
     self_agent_id := None |}.

(** The parsed command line of [main]. *)
Record Args := mkArgs {
  args_url : string;
  args_token : string;
  args_no_verify_ssl : bool
}.

(** The agent [main] constructs. *)
Definition main_agent (args : Args) : OverwatchAgent :=
  __init__ (args_url args) (args_token args) (negb (args_no_verify_ssl args)).

(** [n] copies of the character [c]. *)
Fixpoint copies (n : nat) (c : ascii) : string :=
  match n with
  | O => EmptyString
  | S n' => String c (copies n' c)
  end.

(** The last character of a string, if it has one. *)
Fixpoint last_char (s : string) : option ascii :=
  match s with
  | EmptyString => None
  | String a EmptyString => Some a
  | String _ s' => last_char s'
  end.

(** ** Polls and batches *)

(** The answers to the scripts request on which the poll goes on to
    execute something: status 200 and a JSON array that is not empty. *)
Definition hands_out_tasks (o : http_outcome) : bool :=
  match o with
  | HttpRaises _ => false
  | HttpReturns r =>
      (status_code r =? 200)
      && match resp_body r with JArray (_ :: _) => true | _ => false end
  end.

(** The first of the keys [_execute_script] indexes that [script] lacks,
    in the order in which they are indexed. *)
Definition first_missing_key (script : dict) : option string :=
  match script !! "execution_id" with
  | None => Some "execution_id"
  | Some _ =>
      match script !! "content" with
      | None => Some "content"
      | Some _ =>
          match script !! "script_name" with
          | None => Some "script_name"
          | Some _ => None
          end
      end
  end.

(** A task without a script name. *)
Definition task_unnamed : dict :=
  {[ "execution_id" := "e9"; "content" := "echo lost" ]}.

(** The server hands out [task1], [task_unnamed] and [task2], in this
    order, and accepts every report. *)
Definition http_tasks_malformed (w : World) (r : request) : http_outcome * Z :=
  match r with
  | ScriptsReq =>
      (HttpReturns (Response 200 (JArray [task1; task_unnamed; task2]) ""), 0)
  | _ => (HttpReturns ok_response, 0)
  end.

Definition env_batch_malformed : Env :=
  scenario_env http_tasks_malformed proc_ok None.

(** The server is busy: every call is answered with status 503. *)
Definition http_busy (w : World) (r : request) : http_outcome * Z :=
  (HttpReturns (Response 503 (JArray [task1]) "busy"), 0).

Definition env_busy : Env := scenario_env http_busy proc_ok None.

(** ** Events by duty *)

(** The calls of the metrics duty. *)
Definition is_metrics_event (e : event) : bool :=
  match e with
  | ESample _ => true
  | EHttp _ (MetricsReq _) _ => true
  | _ => false
  end.

(** The calls of the script-poll duty: the scripts request, the launches
    and the reports. *)
Definition is_poll_event (e : event) : bool :=
  match e with
  | EHttp _ ScriptsReq _ => true
  | EHttp _ (ResultReq _ _ _ _) _ => true
  | ESubprocess _ _ _ => true
  | _ => false
  end.

(** The calls of the script runner: launches and reports. *)
Definition is_runner_event (e : event) : bool :=
  match e with
  | EHttp _ (ResultReq _ _ _ _) _ => true
  | ESubprocess _ _ _ => true
  | _ => false
  end.

(** From [w] to [w'] only calls recognised by [p] were made. *)
Definition appends (p : event -> bool) (w w' : World) : Prop :=
  exists evs, trace w' = (trace w ++ evs)%list /\ forallb p evs = true.

(** The number of calls recognised by [p]. *)
Definition count_calls (p : event -> bool) (evs : list event) : nat :=
  length (List.filter p evs).

(** A heartbeat made at or after [t] is not in the trace. *)
Definition heartbeat_before (t : Z) (e : event) : bool :=
  match e with
  | EHttp t' (HeartbeatReq _ _) _ => t' <? t
  | _ => true
  end.

(** [w'] has the agent_id of [w]. *)
Definition same_agent_id (w w' : World) : Prop := agent_id w' = agent_id w.

(** The child hangs and the channel is down. *)
Definition env_hangs_down : Env := scenario_env http_down proc_hangs None.

(** A child killed by signal 1: [returncode] is -1. *)
Definition proc_killed (w : World) (argv : list string) : proc_behaviour :=
  ProcRuns 2 (-1) "started" "".

Definition env_killed : Env := scenario_env http_ok proc_killed None.

(** * Properties *)

(** ** The monad and the collaborator calls *)

Lemma trace_log e w : trace (log e w) = (trace w ++ [e])%list.
Proof. reflexivity. Qed.

Lemma clock_log e w : clock (log e w) = clock w.
Proof. reflexivity. Qed.

Lemma trace_advance env d w : trace (advance env d w) = trace w.
Proof. unfold advance. destruct (sigterm env); [case_match |]; reflexivity. Qed.

Lemma clock_advance env d w : clock (advance env d w) = clock w + d.
Proof. unfold advance. destruct (sigterm env); [case_match |]; reflexivity. Qed.

Lemma agent_id_advance env d w : agent_id (advance env d w) = agent_id w.
Proof. unfold advance. destruct (sigterm env); [case_match |]; reflexivity. Qed.

Lemma safe_ret {A} (a : A) : safe (ret a).
Proof. intros w. exact I. Qed.

Lemma safe_bind {A B} (m : M A) (f : A -> M B) :
  safe m -> (forall a, safe (f a)) -> safe (bind m f).
Proof.
  intros Hm Hf w. unfold bind. specialize (Hm w).
  destruct (m w) as [[a | e | ] w']; simpl in *; [apply Hf | exact Hm | exact Hm].
Qed.

Lemma total_safe {A} (m : M A) : total m -> safe m.
Proof. intros H w. destruct (H w) as (a & w' & ->). exact I. Qed.

Lemma safe_getitem d k : safe (getitem d k).
Proof. intros w. unfold getitem. destruct (d !! k); reflexivity. Qed.

Lemma safe_resp_json r : safe (resp_json r).
Proof. intros w. unfold resp_json. destruct (resp_body r); reflexivity. Qed.

Lemma safe_json_get data k : safe (json_get data k).
Proof. intros w. destruct data; reflexivity. Qed.

Lemma safe_json_iter data : safe (json_iter data).
Proof.
  intros w. destruct data; try reflexivity.
  unfold json_iter. case_decide; reflexivity.
Qed.

Lemma safe_time_time : safe time_time.
Proof. intros w. exact I. Qed.

Lemma safe_session_request env r : safe (session_request env r).
Proof.
  intros w. unfold session_request.
  destruct (http env w r) as [[msg | resp] d]; reflexivity.
Qed.

Lemma safe_subprocess_run env argv timeout : safe (subprocess_run env argv timeout).
Proof.
  intros w. unfold subprocess_run.
  destruct (proc env w argv) as [msg | d rc out err]; [reflexivity |].
  destruct (timeout <? d); reflexivity.
Qed.

Lemma safe_psutil_sample env : safe (psutil_sample env).
Proof.
  intros w. unfold psutil_sample.
  destruct (sample env w) as [[msg | s] d]; reflexivity.
Qed.

Lemma safe_set_agent_id a : safe (set_agent_id a).
Proof. intros w. exact I. Qed.

Lemma safe_for_each {A} (xs : list A) (body : A -> M unit) :
  (forall x, safe (body x)) -> safe (for_each xs body).
Proof.
  intros Hb. induction xs as [| x xs IH]; simpl.
  - apply safe_ret.
  - apply safe_bind; [apply Hb | intros _; exact IH].
Qed.

(** A [try] whose handlers are safe is safe. *)
Lemma safe_try_except {A} (body : M A) hs :
  safe body -> Forall (fun h => forall e, safe (h.2 e)) hs ->
  safe (try_except body hs).
Proof.
  intros Hb Hh w. unfold try_except. specialize (Hb w).
  destruct (body w) as [[a | e | ] w']; simpl in *; try exact Hb.
  induction Hh as [| [p h] hs Hp _ IH]; simpl.
  - exact Hb.
  - destruct (p e); [apply Hp | exact IH].
Qed.

(** [try: body except Exception: return a] always returns when [body] is
    safe: nothing unwinds past the clause. *)
Lemma total_try_swallow {A} (body : M A) (a : A) :
  safe body -> total (try_except body [(is_Exception, fun _ => ret a)]).
Proof.
  intros Hb w. unfold try_except. specialize (Hb w).
  destruct (body w) as [[x | e | ] w']; simpl in *.
  - eauto.
  - rewrite Hb. unfold ret. eauto.
  - destruct Hb.
Qed.

Create HintDb safe_db.
#[local] Hint Resolve safe_ret safe_getitem safe_resp_json safe_json_get
  safe_json_iter safe_time_time safe_session_request safe_subprocess_run
  safe_psutil_sample safe_set_agent_id : safe_db.

Ltac prove_safe :=
  repeat first
    [ solve [auto with safe_db]
    | apply safe_bind; [| intros ?]
    | apply safe_try_except; [| repeat constructor; simpl; intros ?]
    | apply safe_for_each; intros ?
    | match goal with |- safe (if ?b then _ else _) => destruct b end
    | match goal with |- safe (match ?x with _ => _ end) => destruct x end ].

Lemma safe_run_interpreter env st content : safe (run_interpreter env st content).
Proof. unfold run_interpreter. prove_safe. Qed.

Lemma safe_execute_script env script : safe (_execute_script env script).
Proof.
  unfold _execute_script. pose proof (safe_run_interpreter env). prove_safe.
Qed.

Lemma total_register env : total (register env).
Proof. unfold register. apply total_try_swallow. prove_safe. Qed.

Lemma total_heartbeat env : total (heartbeat env).
Proof. unfold heartbeat. apply total_try_swallow. prove_safe. Qed.

Lemma total_collect_and_push_metrics env : total (collect_and_push_metrics env).
Proof. unfold collect_and_push_metrics. apply total_try_swallow. prove_safe. Qed.

Lemma total_poll_and_execute_scripts env : total (poll_and_execute_scripts env).
Proof.
  unfold poll_and_execute_scripts. apply total_try_swallow.
  pose proof (safe_execute_script env). prove_safe.
Qed.

(** ** Slicing *)



Lemma substring_0_all (n : nat) (s : string) :
  (String.length s <= n)%nat -> String.substring 0 n s = s.
Proof.
  revert s. induction n as [| n IH]; intros [| c s]; simpl; intros H;
    try reflexivity; [lia |].
  f_equal. apply IH. lia.
Qed.



Lemma slice_to_short (n : Z) (s : string) :
  Z.of_nat (String.length s) <= n -> slice_to n s = s.
Proof. intros H. apply substring_0_all. lia. Qed.


(** ** The script runner *)

Lemma run_interpreter_argv env st content :
  run_interpreter env st content
  = subprocess_run env (interpreter_argv env st content) 300.
Proof.
  unfold run_interpreter, interpreter_argv.
  destruct (in_tuple st _); [reflexivity |].
  destruct (String.eqb st "powershell"); [reflexivity |].
  destruct (String.eqb st "python"); reflexivity.
Qed.

Lemma session_request_returns env r w resp d :
  http env w r = (HttpReturns resp, d) ->
  session_request env r w = (Ok resp, after_http env r (HttpReturns resp) d w).
Proof. intros H. unfold session_request. rewrite H. reflexivity. Qed.

Lemma session_request_raises env r w msg d :
  http env w r = (HttpRaises msg, d) ->
  session_request env r w
  = (Raise (Exn OtherException msg), after_http env r (HttpRaises msg) d w).
Proof. intros H. unfold session_request. rewrite H. reflexivity. Qed.

Lemma trace_after_http env r o d w :
  trace (after_http env r o d w) = (trace w ++ [EHttp (clock w) r o])%list.
Proof. unfold after_http. rewrite trace_advance. reflexivity. Qed.

Lemma clock_after_http env r o d w :
  clock (after_http env r o d w) = clock w + d.
Proof. unfold after_http. rewrite clock_advance. reflexivity. Qed.

Section ScriptRunner.

Variable env : Env.
Variables (script : dict) (execution_id content script_name : string).
Hypothesis Hid : script !! "execution_id" = Some execution_id.
Hypothesis Hcontent : script !! "content" = Some content.
Hypothesis Hname : script !! "script_name" = Some script_name.

Let argv := interpreter_argv env (script_type_of script) content.

(** With its three keys present, [_execute_script] is its [try] statement. *)
Lemma execute_script_unfold w :
  _execute_script env script w
  = try_except
      (result <- subprocess_run env argv 300 ;;
       session_request env
         (result_of_run execution_id (returncode result)
            (cp_stdout result) (cp_stderr result)) ;;;
       ret tt)
      [(is_TimeoutExpired, fun _ =>
          session_request env (result_of_timeout execution_id) ;;; ret tt);
       (is_Exception, fun e =>
          session_request env (result_of_failure execution_id (exn_str e)) ;;;
          ret tt)] w.
Proof.
  unfold _execute_script, getitem, bind at 1 2 3.
  rewrite Hid, Hcontent, Hname. unfold ret at 1 2 3.
  rewrite run_interpreter_argv. reflexivity.
Qed.

(** Normal completion, report delivered. *)
Lemma execute_script_completed w d rc out err resp dt :
  proc env w argv = ProcRuns d rc out err -> d <= 300 ->
  let w1 := advance env d (launched argv w) in
  let req := result_of_run execution_id rc out err in
  http env w1 req = (HttpReturns resp, dt) ->
  _execute_script env script w
  = (Ok tt, after_http env req (HttpReturns resp) dt w1).
Proof.
  intros Hp Hd w1 req Hh. rewrite execute_script_unfold.
  unfold try_except, bind, subprocess_run. rewrite Hp.
  destruct (300 <? d) eqn:E; [lia |]. simpl.
  fold (launched argv w). fold w1. fold req.
  rewrite (session_request_returns _ _ _ _ _ Hh). reflexivity.
Qed.

(** Normal completion, but the report raises: the [except Exception] clause
    sends a second report. *)
Lemma execute_script_completed_report_raises w d rc out err msg dt :
  proc env w argv = ProcRuns d rc out err -> d <= 300 ->
  let w1 := advance env d (launched argv w) in
  let req := result_of_run execution_id rc out err in
  http env w1 req = (HttpRaises msg, dt) ->
  _execute_script env script w
  = (session_request env (result_of_failure execution_id msg) ;;; ret tt)
      (after_http env req (HttpRaises msg) dt w1).
Proof.
  intros Hp Hd w1 req Hh. rewrite execute_script_unfold.
  unfold try_except at 1, bind at 1 2, subprocess_run. rewrite Hp.
  destruct (300 <? d) eqn:E; [lia |]. simpl.
  fold (launched argv w). fold w1. fold req.
  rewrite (session_request_raises _ _ _ _ _ Hh). reflexivity.
Qed.

(** Timeout. *)
Lemma execute_script_timed_out w d rc out err :
  proc env w argv = ProcRuns d rc out err -> 300 < d ->
  _execute_script env script w
  = (session_request env (result_of_timeout execution_id) ;;; ret tt)
      (advance env 300 (launched argv w)).
Proof.
  intros Hp Hd. rewrite execute_script_unfold.
  unfold try_except at 1, bind at 1, subprocess_run. rewrite Hp.
  destruct (300 <? d) eqn:E; [| lia]. reflexivity.
Qed.

(** The launch itself raises. *)
Lemma execute_script_launch_raises w msg :
  proc env w argv = ProcRaises msg ->
  _execute_script env script w
  = (session_request env (result_of_failure execution_id msg) ;;; ret tt)
      (launched argv w).
Proof.
  intros Hp. rewrite execute_script_unfold.
  unfold try_except at 1, bind at 1, subprocess_run. rewrite Hp. reflexivity.
Qed.

End ScriptRunner.

(** ** Traces of the script runner *)

Lemma events_since_app w w' (evs : list event) :
  trace w' = (trace w ++ evs)%list -> events_since w w' = evs.
Proof. intros H. unfold events_since. rewrite H. apply drop_app_length. Qed.

(** Sending one report appends one call, whether or not it raises. *)
Lemma trace_send_report env r w :
  trace ((session_request env r ;;; ret tt) w).2
  = (trace w ++ [EHttp (clock w) r (http env w r).1])%list.
Proof.
  unfold bind, session_request.
  destruct (http env w r) as [[msg | resp] d]; simpl;
    rewrite trace_advance; reflexivity.
Qed.

Lemma send_report_delivered env r w resp d :
  http env w r = (HttpReturns resp, d) ->
  (session_request env r ;;; ret tt) w
  = (Ok tt, after_http env r (HttpReturns resp) d w).
Proof.
  intros H. unfold bind. rewrite (session_request_returns _ _ _ _ _ H).
  reflexivity.
Qed.

(** Every path through [_execute_script], by the ScriptResults it hands to
    the session. *)
Lemma execute_script_reports env script eid content name w :
  has_keys script eid content name ->
  let argv := interpreter_argv env (script_type_of script) content in
  let reps := report_requests (events_since w (_execute_script env script w).2) in
  match proc env w argv with
  | ProcRaises msg => reps = [result_of_failure eid msg]
  | ProcRuns d rc out err =>
      if 300 <? d then reps = [result_of_timeout eid]
      else
        match (http env (advance env d (launched argv w))
                 (result_of_run eid rc out err)).1 with
        | HttpReturns _ => reps = [result_of_run eid rc out err]
        | HttpRaises msg =>
            reps = [result_of_run eid rc out err; result_of_failure eid msg]
        end
  end.
Proof.
  intros (Hid & Hc & Hn) argv reps. subst reps.
  destruct (proc env w argv) as [msg | d rc out err] eqn:Hp.
  - rewrite (execute_script_launch_raises env script eid content name Hid Hc Hn w msg Hp).
    erewrite events_since_app; cycle 1.
    { rewrite trace_send_report. unfold launched. simpl.
      rewrite <- app_assoc. reflexivity. }
    reflexivity.
  - destruct (300 <? d) eqn:Hd.
    + apply Z.ltb_lt in Hd.
      rewrite (execute_script_timed_out env script eid content name Hid Hc Hn w d rc out err Hp Hd).
      erewrite events_since_app; cycle 1.
      { rewrite trace_send_report, trace_advance. unfold launched. simpl.
        rewrite <- app_assoc. reflexivity. }
      reflexivity.
    + apply Z.ltb_ge in Hd.
      destruct (http env (advance env d (launched argv w)) (result_of_run eid rc out err))
        as [[msg | resp] dt] eqn:Hh; simpl.
      * rewrite (execute_script_completed_report_raises env script eid content name
                   Hid Hc Hn w d rc out err msg dt Hp Hd Hh).
        erewrite events_since_app; cycle 1.
        { rewrite trace_send_report, trace_after_http, trace_advance.
          unfold launched. simpl. rewrite <- !app_assoc. reflexivity. }
        reflexivity.
      * rewrite (execute_script_completed env script eid content name
                   Hid Hc Hn w d rc out err resp dt Hp Hd Hh).
        erewrite events_since_app; cycle 1.
        { simpl. rewrite trace_after_http, trace_advance.
          unfold launched. simpl. rewrite <- !app_assoc. reflexivity. }
        reflexivity.
Qed.

(** ** C1: one ScriptResult per task *)

(** C1, the code at the failing input: a task that completes normally
    while the channel is down has two ScriptResults handed to the session
    under its execution id, where the claim asks for exactly one.  The
    second is built by the [except Exception] clause, which is there for a
    launch that fails and says that the script failed (exit code -1); it
    catches the transport error of the report only because the post is
    inside the [try]. *)
Lemma script_runner_two_results :
  has_keys task1 "e1" "echo ok" "probe"
  /\ report_requests (events_since w0 (_execute_script env_lossy task1 w0).2)
     = [ResultReq "e1" 0 "ok" None;
        ResultReq "e1" (-1) "" (Some "Connection refused")]
  /\ ~ exactly_one_result env_lossy task1 "e1" w0.
Proof.
  split; [repeat split; reflexivity |].
  assert (H : report_requests
                (events_since w0 (_execute_script env_lossy task1 w0).2)
              = [ResultReq "e1" 0 "ok" None;
                 ResultReq "e1" (-1) "" (Some "Connection refused")])
    by (vm_compute; reflexivity).
  split; [exact H |].
  intros (rc & out & err & H'). rewrite H in H'. discriminate H'.
Qed.

(** C1, where the code does what the claim says: for every task that
    carries execution_id, content and script_name, exactly one ScriptResult
    with the task's execution id is handed to the session, the one of the
    outcome at hand (normal completion, timeout, or an exception raised by
    the launch), provided report-result requests for that id do not raise;
    in the timeout and launch-exception outcomes this holds even when they
    do.  When the reports do not raise the runner returns normally. *)
Theorem script_runner_one_result env script eid content name w :
  has_keys script eid content name ->
  let b := proc env w (interpreter_argv env (script_type_of script) content) in
  reports_delivered env eid \/ not_completed b ->
  report_requests (events_since w (_execute_script env script w).2)
  = [report_for_behaviour eid b]
  /\ exactly_one_result env script eid w
  /\ (reports_delivered env eid -> (_execute_script env script w).1 = Ok tt).
Proof.
  intros Hk b Hor.
  pose proof (execute_script_reports env script eid content name w Hk) as Hr.
  cbv zeta in Hr. fold b in Hr.
  assert (Hone : report_requests (events_since w (_execute_script env script w).2)
                 = [report_for_behaviour eid b]).
  { destruct b as [msg | d rc out err]; simpl; [exact Hr |].
    destruct (300 <? d) eqn:Hd; [exact Hr |].
    destruct Hor as [Hdel | Hnc]; [| simpl in Hnc; lia].
    destruct (Hdel (advance env d
                      (launched (interpreter_argv env (script_type_of script) content) w))
                   rc (slice_to 50000 out)
                   (if truthy err then Some (slice_to 10000 err) else None))
      as (resp & dt & Hh).
    unfold result_of_run in Hr. rewrite Hh in Hr. exact Hr. }
  split; [exact Hone |]. split.
  - unfold exactly_one_result. rewrite Hone.
    destruct b as [msg | d rc out err]; simpl; [eauto |].
    destruct (300 <? d); unfold result_of_timeout, result_of_run; eauto.
  - intros Hdel. destruct Hk as (Hid & Hc & Hn).
    destruct b as [msg | d rc out err] eqn:Hb; subst b.
    + rewrite (execute_script_launch_raises env script eid content name Hid Hc Hn w msg Hb).
      destruct (Hdel (launched (interpreter_argv env (script_type_of script) content) w)
                  (-1) "" (Some msg)) as (resp & dt & Hh).
      unfold result_of_failure. now rewrite (send_report_delivered _ _ _ _ _ Hh).
    + destruct (Z.lt_ge_cases 300 d) as [Hd | Hd].
      * rewrite (execute_script_timed_out env script eid content name Hid Hc Hn
                   w d rc out err Hb Hd).
        destruct (Hdel (advance env 300
                          (launched (interpreter_argv env (script_type_of script) content) w))
                    (-1) "" (Some "Execution timed out")) as (resp & dt & Hh).
        unfold result_of_timeout. now rewrite (send_report_delivered _ _ _ _ _ Hh).
      * destruct (Hdel (advance env d
                          (launched (interpreter_argv env (script_type_of script) content) w))
                    rc (slice_to 50000 out)
                    (if truthy err then Some (slice_to 10000 err) else None))
          as (resp & dt & Hh).
        now rewrite (execute_script_completed env script eid content name Hid Hc Hn
                       w d rc out err resp dt Hb Hd Hh).
Qed.

Lemma script_runner_one_result_witness :
  has_keys task1 "e1" "echo ok" "probe"
  /\ report_requests (events_since w0 (_execute_script env_ok task1 w0).2)
     = [report_for_behaviour "e1"
          (proc env_ok w0 (interpreter_argv env_ok (script_type_of task1) "echo ok"))].
Proof.
  assert (Hk : has_keys task1 "e1" "echo ok" "probe")
    by (repeat split; reflexivity).
  split; [exact Hk |].
  apply (script_runner_one_result env_ok task1 "e1" "echo ok" "probe" w0 Hk).
  left. intros w rc out err. exists ok_response, 0. reflexivity.
Defined.

(** ** C2: the timeout result *)

(** C2: when the child would run for more than 300 seconds, the runner
    stops waiting after exactly 300 seconds and reports exit code -1, an
    empty stdout and the fixed message, whatever the child had printed. *)
Theorem timeout_result env script eid content name w d rc out err :
  has_keys script eid content name ->
  let argv := interpreter_argv env (script_type_of script) content in
  proc env w argv = ProcRuns d rc out err ->
  300 < d ->
  exists o,
    events_since w (_execute_script env script w).2
    = [ESubprocess (clock w) argv 300;
       EHttp (clock w + 300)
         (ResultReq eid (-1) "" (Some "Execution timed out")) o].
Proof.
  intros (Hid & Hc & Hn) argv Hp Hd.
  rewrite (execute_script_timed_out env script eid content name Hid Hc Hn
             w d rc out err Hp Hd).
  eexists. apply events_since_app.
  rewrite trace_send_report, trace_advance, clock_advance.
  unfold launched. simpl. rewrite <- app_assoc. reflexivity.
Qed.

Lemma timeout_result_witness :
  exists o,
    events_since w0 (_execute_script env_hangs task1 w0).2
    = [ESubprocess (clock w0)
         (interpreter_argv env_hangs (script_type_of task1) "echo ok") 300;
       EHttp (clock w0 + 300)
         (ResultReq "e1" (-1) "" (Some "Execution timed out")) o].
Proof.
  apply (timeout_result env_hangs task1 "e1" "echo ok" "probe" w0
           600 0 "partial output" "partial errors").
  - repeat split; reflexivity.
  - reflexivity.
  - lia.
Defined.

(** ** C6: truncation *)





(** ** C7: interpreter dispatch *)

(** With its three keys, a task's first call is the launch of its
    interpreter. *)
Lemma extends_launch env script eid content name w :
  script !! "execution_id" = Some eid ->
  script !! "content" = Some content ->
  script !! "script_name" = Some name ->
  exists evs,
    trace (_execute_script env script w).2
    = (trace w
       ++ ESubprocess (clock w)
            (interpreter_argv env (script_type_of script) content) 300
          :: evs)%list.
Proof.
  intros Hid Hc Hn.
  destruct (proc env w (interpreter_argv env (script_type_of script) content))
    as [msg | d rc out err] eqn:Hp.
  - rewrite (execute_script_launch_raises env script eid content name Hid Hc Hn w msg Hp).
    rewrite trace_send_report. unfold launched. simpl.
    rewrite <- app_assoc. eexists. reflexivity.
  - destruct (Z.lt_ge_cases 300 d) as [Hd | Hd].
    + rewrite (execute_script_timed_out env script eid content name Hid Hc Hn
                 w d rc out err Hp Hd).
      rewrite trace_send_report, trace_advance. unfold launched. simpl.
      rewrite <- app_assoc. eexists. reflexivity.
    + destruct (http env
                  (advance env d
                     (launched (interpreter_argv env (script_type_of script) content) w))
                  (result_of_run eid rc out err)) as [[msg | resp] dt] eqn:Hh.
      * rewrite (execute_script_completed_report_raises env script eid content name
                   Hid Hc Hn w d rc out err msg dt Hp Hd Hh).
        rewrite trace_send_report, trace_after_http, trace_advance.
        unfold launched. simpl. rewrite <- !app_assoc. eexists. reflexivity.
      * rewrite (execute_script_completed env script eid content name
                   Hid Hc Hn w d rc out err resp dt Hp Hd Hh).
        simpl. rewrite trace_after_http, trace_advance.
        unfold launched. simpl. rewrite <- !app_assoc. eexists. reflexivity.
Qed.

(** C7: the interpreter [_execute_script] launches is decided by the
    task's script_type: bash and shell launch bash, powershell launches
    powershell, python launches the Python interpreter, and every other
    value, as well as a task without a script_type, launches bash; no
    script type makes the dispatch itself fail.  The launch is the first
    call the runner makes for the task. *)
Theorem interpreter_dispatch env content :
  run_interpreter env "bash" content
  = subprocess_run env ["bash"; "-c"; content] 300
  /\ run_interpreter env "shell" content
     = subprocess_run env ["bash"; "-c"; content] 300
  /\ run_interpreter env "powershell" content
     = subprocess_run env ["powershell"; "-Command"; content] 300
  /\ run_interpreter env "python" content
     = subprocess_run env [sys_executable env; "-c"; content] 300
  /\ (forall st, st <> "bash" -> st <> "shell" ->
                 st <> "powershell" -> st <> "python" ->
        run_interpreter env st content
        = subprocess_run env ["bash"; "-c"; content] 300)
  /\ (forall script : dict, script !! "script_type" = None ->
        script_type_of script = "bash")
  /\ (forall (script : dict) eid name w,
        has_keys script eid content name ->
        exists argv evs,
          events_since w (_execute_script env script w).2
          = ESubprocess (clock w) argv 300 :: evs
          /\ match script !! "script_type" with
             | None => argv = ["bash"; "-c"; content]
             | Some st =>
                 (st = "bash" \/ st = "shell" ->
                  argv = ["bash"; "-c"; content])
                 /\ (st = "powershell" ->
                     argv = ["powershell"; "-Command"; content])
                 /\ (st = "python" ->
                     argv = [sys_executable env; "-c"; content])
                 /\ (st <> "bash" -> st <> "shell" ->
                     st <> "powershell" -> st <> "python" ->
                     argv = ["bash"; "-c"; content])
             end).
Proof.
  split; [reflexivity |]. split; [reflexivity |]. split; [reflexivity |].
  split; [reflexivity |]. split; [| split].
  - intros st H1 H2 H3 H4. unfold run_interpreter, in_tuple. simpl.
    apply String.eqb_neq in H1, H2, H3, H4.
    rewrite H1, H2, H3, H4. reflexivity.
  - intros script H. unfold script_type_of. rewrite H. reflexivity.
  - intros script eid name w (Hid & Hc & Hn).
    destruct (extends_launch env script eid content name w Hid Hc Hn)
      as [evs Hevs].
    exists (interpreter_argv env (script_type_of script) content), evs.
    split; [apply events_since_app; exact Hevs |].
    unfold script_type_of.
    destruct (script !! "script_type") as [st |]; simpl; [| reflexivity].
    repeat split.
    + intros [-> | ->]; reflexivity.
    + intros ->. reflexivity.
    + intros ->. reflexivity.
    + intros H1 H2 H3 H4. unfold interpreter_argv, in_tuple. simpl.
      apply String.eqb_neq in H1, H2, H3, H4.
      rewrite H1, H2, H3, H4. reflexivity.
Qed.

Lemma interpreter_dispatch_witness :
  (run_interpreter env_ok "ruby" "puts 1"
   = subprocess_run env_ok ["bash"; "-c"; "puts 1"] 300
   /\ script_type_of task2 = "bash")
  /\ exists argv evs,
       events_since w0 (_execute_script env_ok task_python w0).2
       = ESubprocess (clock w0) argv 300 :: evs
       /\ argv = [sys_executable env_ok; "-c"; "print(1)"].
Proof.
  split.
  - destruct (interpreter_dispatch env_ok "puts 1")
      as (_ & _ & _ & _ & Hother & Habsent & _).
    split.
    + apply Hother; discriminate.
    + apply Habsent. reflexivity.
  - destruct (interpreter_dispatch env_ok "print(1)")
      as (_ & _ & _ & _ & _ & _ & Hlaunch).
    destruct (Hlaunch task_python "e3" "py" w0) as (argv & evs & Hev & Hargv).
    + repeat split; reflexivity.
    + exists argv, evs. split; [exact Hev |].
      change (task_python !! "script_type") with (Some "python") in Hargv.
      apply Hargv. reflexivity.
Defined.

(** ** Relations preserved by every step of the agent *)

Section Respects.

Variable env : Env.
Variable R : World -> World -> Prop.
Hypothesis R_refl : forall w, R w w.
Hypothesis R_trans : forall w1 w2 w3, R w1 w2 -> R w2 w3 -> R w1 w3.
Hypothesis R_request : forall r, respects R (session_request env r).
Hypothesis R_subprocess : forall argv, respects R (subprocess_run env argv 300).
Hypothesis R_sample : respects R (psutil_sample env).
Hypothesis R_sleep : forall d, 0 < d -> respects R (time_sleep env d).
Hypothesis R_set : forall a, respects R (set_agent_id a).
Hypothesis R_exit : forall A c, respects R (@sys_exit A c).

Lemma respects_ret {A} (a : A) : respects R (ret a).
Proof. intros w. apply R_refl. Qed.

Lemma respects_raise {A} e : respects R (@raise A e).
Proof. intros w. apply R_refl. Qed.

Lemma respects_bind {A B} (m : M A) (f : A -> M B) :
  respects R m -> (forall a, respects R (f a)) -> respects R (bind m f).
Proof.
  intros Hm Hf w. unfold bind. specialize (Hm w).
  destruct (m w) as [[a | e | ] w']; simpl in *; try exact Hm.
  eapply R_trans; [exact Hm | apply Hf].
Qed.

Lemma respects_try_except {A} (body : M A) hs :
  respects R body -> Forall (fun h => forall e, respects R (h.2 e)) hs ->
  respects R (try_except body hs).
Proof.
  intros Hb Hh w. unfold try_except. specialize (Hb w).
  destruct (body w) as [[a | e | ] w']; simpl in *; try exact Hb.
  eapply R_trans; [exact Hb |]. clear Hb.
  induction Hh as [| [p h] hs Hp _ IH]; simpl.
  - apply R_refl.
  - destruct (p e); [apply Hp | exact IH].
Qed.

Lemma respects_for_each {A} (xs : list A) (body : A -> M unit) :
  (forall x, respects R (body x)) -> respects R (for_each xs body).
Proof.
  intros Hb. induction xs as [| x xs IH]; simpl.
  - apply respects_ret.
  - apply respects_bind; [apply Hb | intros _; exact IH].
Qed.

Lemma respects_time_time : respects R time_time.
Proof. intros w. apply R_refl. Qed.

Ltac prove_respects :=
  repeat first
    [ solve [auto using respects_ret, respects_raise, respects_time_time]
    | apply respects_bind; [| intros ?]
    | apply respects_try_except; [| repeat constructor; simpl; intros ?]
    | apply respects_for_each; intros ?
    | match goal with |- respects _ (if ?b then _ else _) => destruct b end
    | match goal with |- respects _ (match ?x with _ => _ end) => destruct x end ].

Lemma respects_register : respects R (register env).
Proof.
  unfold register, resp_json, json_get. prove_respects.
Qed.

Lemma respects_heartbeat : respects R (heartbeat env).
Proof. unfold heartbeat. prove_respects. Qed.

Lemma respects_collect_and_push_metrics :
  respects R (collect_and_push_metrics env).
Proof. unfold collect_and_push_metrics. prove_respects. Qed.

Lemma respects_execute_script script : respects R (_execute_script env script).
Proof.
  unfold _execute_script, getitem, run_interpreter. prove_respects.
Qed.

Lemma respects_poll_and_execute_scripts :
  respects R (poll_and_execute_scripts env).
Proof.
  unfold poll_and_execute_scripts, resp_json, json_iter.
  pose proof respects_execute_script. prove_respects.
Qed.

(** What follows the first step of a [try] body, handlers included. *)
Lemma respects_after_first {A B} (m : M A) (k : A -> M B) hs :
  (forall a, respects R (k a)) ->
  Forall (fun h => forall e, respects R (h.2 e)) hs ->
  forall w, R (m w).2 (try_except (bind m k) hs w).2.
Proof.
  intros Hk Hh w. unfold try_except, bind.
  destruct (m w) as [[a | e | ] w1]; simpl; [| | apply R_refl].
  - apply (respects_try_except (k a) hs (Hk a) Hh w1).
  - induction Hh as [| [p h] hs Hp _ IH]; simpl.
    + apply R_refl.
    + destruct (p e); [apply Hp | exact IH].
Qed.

Lemma poll_after_request w :
  R (session_request env ScriptsReq w).2 (poll_and_execute_scripts env w).2.
Proof.
  unfold poll_and_execute_scripts. apply respects_after_first.
  - intros resp. unfold resp_json, json_iter.
    pose proof respects_execute_script. prove_respects.
  - repeat constructor. simpl. intros ?. apply respects_ret.
Qed.

Lemma collect_after_sample w :
  R (psutil_sample env w).2 (collect_and_push_metrics env w).2.
Proof.
  unfold collect_and_push_metrics. apply respects_after_first.
  - intros smp. prove_respects.
  - repeat constructor. simpl. intros ?. apply respects_ret.
Qed.

Lemma respects_tick s : respects R (tick env s).
Proof.
  unfold tick.
  pose proof respects_heartbeat. pose proof respects_collect_and_push_metrics.
  pose proof respects_poll_and_execute_scripts. prove_respects.
Qed.

Lemma respects_run_loop fuel s : respects R (run_loop env fuel s).
Proof.
  revert s. induction fuel as [| fuel IH]; intros s w; simpl.
  - destruct (running w); apply R_refl.
  - destruct (running w); [| apply R_refl].
    pose proof (respects_tick s). pose proof (R_sleep 1 ltac:(lia)).
    assert (Hr : respects R (s' <- tick env s ;; time_sleep env 1 ;;; run_loop env fuel s'))
      by prove_respects.
    apply Hr.
Qed.

Lemma respects_run fuel : respects R (run env fuel).
Proof.
  unfold run.
  pose proof respects_register. pose proof (R_sleep 30 ltac:(lia)).
  pose proof (respects_run_loop fuel). prove_respects.
Qed.

End Respects.

(** *** The trace only grows *)

Lemma extends_refl w : extends w w.
Proof. unfold extends. reflexivity. Qed.

Lemma extends_trans w1 w2 w3 : extends w1 w2 -> extends w2 w3 -> extends w1 w3.
Proof. unfold extends. intros H1 H2. etrans; eassumption. Qed.

Lemma extends_log e w : extends w (log e w).
Proof. unfold extends. simpl. apply prefix_app_r. reflexivity. Qed.

Lemma extends_advance env d w : extends w (advance env d w).
Proof. unfold extends. rewrite trace_advance. reflexivity. Qed.

Lemma extends_session_request env r : respects extends (session_request env r).
Proof.
  intros w. unfold session_request.
  destruct (http env w r) as [[msg | resp] d]; simpl;
    (eapply extends_trans; [apply extends_log | apply extends_advance]).
Qed.

Lemma extends_subprocess_run env argv t : respects extends (subprocess_run env argv t).
Proof.
  intros w. unfold subprocess_run.
  destruct (proc env w argv) as [msg | d rc out err]; simpl; [apply extends_log |].
  destruct (t <? d); simpl;
    (eapply extends_trans; [apply extends_log | apply extends_advance]).
Qed.

Lemma extends_psutil_sample env : respects extends (psutil_sample env).
Proof.
  intros w. unfold psutil_sample.
  destruct (sample env w) as [[msg | s] d]; simpl;
    (eapply extends_trans; [apply extends_log | apply extends_advance]).
Qed.

Lemma extends_time_sleep env d : respects extends (time_sleep env d).
Proof.
  intros w. simpl. eapply extends_trans; [apply extends_log | apply extends_advance].
Qed.

Lemma extends_set_agent_id a : respects extends (set_agent_id a).
Proof. intros w. unfold extends. simpl. reflexivity. Qed.

Lemma extends_sys_exit A c : respects extends (@sys_exit A c).
Proof. intros w. apply extends_log. Qed.

(** The instances of the section's lemmas for [extends]. *)
Ltac extends_by lem :=
  apply lem;
  eauto using extends_refl, extends_trans, extends_session_request,
    extends_subprocess_run, extends_psutil_sample, extends_time_sleep,
    extends_set_agent_id, extends_sys_exit.

Lemma extends_heartbeat env : respects extends (heartbeat env).
Proof. extends_by respects_heartbeat. Qed.

Lemma extends_collect_and_push_metrics env :
  respects extends (collect_and_push_metrics env).
Proof. extends_by respects_collect_and_push_metrics. Qed.

Lemma extends_poll_and_execute_scripts env :
  respects extends (poll_and_execute_scripts env).
Proof. extends_by respects_poll_and_execute_scripts. Qed.

Lemma extends_run_loop env fuel s : respects extends (run_loop env fuel s).
Proof. extends_by respects_run_loop. Qed.

(** ** The scheduler's iteration *)

Lemma run_duty (duty : M unit) (b : bool) (s s' : DutySchedule) w :
  total duty ->
  (if b then duty ;;; ret s' else ret s) w
  = (Ok (if b then s' else s), if b then (duty w).2 else w).
Proof.
  intros Ht. destruct b; [| reflexivity].
  unfold bind. destruct (Ht w) as ([] & w' & ->). reflexivity.
Qed.

(** An iteration always completes; the timestamps it leaves depend on the
    clock reading and the old timestamps only. *)
Lemma tick_spec env s w :
  tick env s w = (Ok (stamp (clock w) s), tick_world env s w).
Proof.
  destruct s as [lh lm lp]. unfold tick, tick_world, stamp.
  unfold bind at 1. unfold time_time at 1.
  unfold bind at 1. rewrite run_duty by apply total_heartbeat.
  unfold bind at 1. rewrite run_duty by apply total_collect_and_push_metrics.
  unfold bind at 1. rewrite run_duty by apply total_poll_and_execute_scripts.
  unfold ret. cbv zeta.
  cbn [last_heartbeat last_metrics last_script_poll].
  destruct (clock w - lh >=? HEARTBEAT_INTERVAL);
    cbn [last_heartbeat last_metrics last_script_poll];
    destruct (clock w - lm >=? METRICS_INTERVAL);
    cbn [last_heartbeat last_metrics last_script_poll];
    destruct (clock w - lp >=? SCRIPT_POLL_INTERVAL);
    reflexivity.
Qed.

Lemma extends_events w w' :
  extends w w' -> trace w' = (trace w ++ events_since w w')%list.
Proof.
  intros [evs H]. rewrite (events_since_app w w' evs H). exact H.
Qed.

Lemma attempted_mono p w0 w w' w'' :
  extends w0 w -> extends w w' -> extends w' w'' ->
  attempted p w w' -> attempted p w0 w''.
Proof.
  intros [a Ha] [b Hb] [c Hc] H. unfold attempted in *.
  rewrite (events_since_app w w' b Hb) in H.
  rewrite (events_since_app w0 w'' (a ++ b ++ c)).
  - rewrite !existsb_app, H. now rewrite orb_true_r.
  - rewrite Hc, Hb, Ha, <- !app_assoc. reflexivity.
Qed.

(** Each duty starts with its own call, whatever happens next. *)
Lemma attempted_heartbeat env w :
  attempted is_heartbeat_call w (heartbeat env w).2.
Proof.
  unfold attempted, heartbeat, try_except, bind, time_time, session_request.
  destruct (http env w _) as [[msg | resp] d]; simpl;
    (erewrite events_since_app; [| rewrite trace_advance; reflexivity]);
    reflexivity.
Qed.

Lemma attempted_poll env w :
  attempted is_script_poll w (poll_and_execute_scripts env w).2.
Proof.
  assert (H : attempted is_script_poll w (session_request env ScriptsReq w).2).
  { unfold attempted, session_request.
    destruct (http env w _) as [[msg | resp] d]; simpl;
      (erewrite events_since_app; [| rewrite trace_advance; reflexivity]);
      reflexivity. }
  eapply attempted_mono; [apply extends_refl | apply extends_session_request | | exact H].
  extends_by poll_after_request.
Qed.

Lemma attempted_collect env w :
  attempted is_metrics_collection w (collect_and_push_metrics env w).2.
Proof.
  assert (H : attempted is_metrics_collection w (psutil_sample env w).2).
  { unfold attempted, psutil_sample.
    destruct (sample env w) as [[msg | s] d]; simpl;
      (erewrite events_since_app; [| rewrite trace_advance; reflexivity]);
      reflexivity. }
  eapply attempted_mono; [apply extends_refl | apply extends_psutil_sample | | exact H].
  extends_by collect_after_sample.
Qed.

Lemma extends_if_duty (duty : M unit) (b : bool) w :
  respects extends duty -> extends w (if b then (duty w).2 else w).
Proof. intros H. destruct b; [apply H | apply extends_refl]. Qed.

(** A duty that is due when an iteration starts is attempted in it. *)
Lemma tick_attempts env s w :
  (clock w - last_heartbeat s >= HEARTBEAT_INTERVAL ->
   attempted is_heartbeat_call w (tick_world env s w))
  /\ (clock w - last_metrics s >= METRICS_INTERVAL ->
      attempted is_metrics_collection w (tick_world env s w))
  /\ (clock w - last_script_poll s >= SCRIPT_POLL_INTERVAL ->
      attempted is_script_poll w (tick_world env s w)).
Proof.
  unfold tick_world. cbv zeta.
  set (b1 := clock w - last_heartbeat s >=? HEARTBEAT_INTERVAL).
  set (b2 := clock w - last_metrics s >=? METRICS_INTERVAL).
  set (b3 := clock w - last_script_poll s >=? SCRIPT_POLL_INTERVAL).
  set (w1 := if b1 then (heartbeat env w).2 else w).
  set (w2 := if b2 then (collect_and_push_metrics env w1).2 else w1).
  set (w3 := if b3 then (poll_and_execute_scripts env w2).2 else w2).
  assert (E1 : extends w w1) by apply extends_if_duty, extends_heartbeat.
  assert (E2 : extends w1 w2) by apply extends_if_duty, extends_collect_and_push_metrics.
  assert (E3 : extends w2 w3) by apply extends_if_duty, extends_poll_and_execute_scripts.
  repeat split; intros Hdue.
  - assert (Hb : b1 = true) by (apply Z.geb_le; lia).
    apply (attempted_mono _ w w w1 w3);
      eauto using extends_refl, extends_trans.
    unfold w1. rewrite Hb. apply attempted_heartbeat.
  - assert (Hb : b2 = true) by (apply Z.geb_le; lia).
    apply (attempted_mono _ w w1 w2 w3); eauto using extends_refl.
    unfold w2. rewrite Hb. apply attempted_collect.
  - assert (Hb : b3 = true) by (apply Z.geb_le; lia).
    apply (attempted_mono _ w w2 w3 w3);
      eauto using extends_refl, extends_trans.
    unfold w3. rewrite Hb. apply attempted_poll.
Qed.

(** ** C8: a failing duty stays inside its own invocation *)



(** ** C10: the first iteration *)

(** C10: when registration has succeeded and the clock reads at least 30
    (as every wall clock does), the first iteration of the loop runs the
    heartbeat, the metrics push and the script poll, in this order and
    before the first sleep, and stamps all three with the clock reading. *)
Theorem first_iteration_runs_all_duties env fuel w_start w :
  register env w_start = (Ok true, w) ->
  running w = true ->
  clock w >= 30 ->
  let w3 := (poll_and_execute_scripts env
               (collect_and_push_metrics env (heartbeat env w).2).2).2 in
  run env (S fuel) w_start
  = (time_sleep env 1 ;;;
     run_loop env fuel (Schedule (clock w) (clock w) (clock w))) w3
  /\ tick env (Schedule 0 0 0) w
     = (Ok (Schedule (clock w) (clock w) (clock w)), w3)
  /\ attempted is_heartbeat_call w w3
  /\ attempted is_metrics_collection w w3
  /\ attempted is_script_poll w w3.
Proof.
  intros Hreg Hrun Hclock w3.
  assert (Hs : stamp (clock w) (Schedule 0 0 0)
               = Schedule (clock w) (clock w) (clock w)).
  { unfold stamp. simpl. rewrite Z.sub_0_r.
    replace (clock w >=? HEARTBEAT_INTERVAL) with true
      by (symmetry; apply Z.geb_le; unfold HEARTBEAT_INTERVAL; lia).
    replace (clock w >=? METRICS_INTERVAL) with true
      by (symmetry; apply Z.geb_le; unfold METRICS_INTERVAL; lia).
    replace (clock w >=? SCRIPT_POLL_INTERVAL) with true
      by (symmetry; apply Z.geb_le; unfold SCRIPT_POLL_INTERVAL; lia).
    reflexivity. }
  assert (Hw : tick_world env (Schedule 0 0 0) w = w3).
  { unfold tick_world. simpl. rewrite Z.sub_0_r.
    replace (clock w >=? HEARTBEAT_INTERVAL) with true
      by (symmetry; apply Z.geb_le; unfold HEARTBEAT_INTERVAL; lia).
    replace (clock w >=? METRICS_INTERVAL) with true
      by (symmetry; apply Z.geb_le; unfold METRICS_INTERVAL; lia).
    replace (clock w >=? SCRIPT_POLL_INTERVAL) with true
      by (symmetry; apply Z.geb_le; unfold SCRIPT_POLL_INTERVAL; lia).
    reflexivity. }
  assert (Ht : tick env (Schedule 0 0 0) w
               = (Ok (Schedule (clock w) (clock w) (clock w)), w3))
    by (rewrite tick_spec, Hs, Hw; reflexivity).
  split; [| split; [exact Ht |]].
  - unfold run. unfold bind at 1. rewrite Hreg. simpl negb. cbv iota.
    unfold bind at 1. unfold ret at 1.
    cbn [run_loop]. rewrite Hrun. unfold bind at 1. rewrite Ht. reflexivity.
  - rewrite <- Hw.
    destruct (tick_attempts env (Schedule 0 0 0) w) as (H1 & H2 & H3).
    simpl in H1, H2, H3. rewrite Z.sub_0_r in H1, H2, H3.
    unfold HEARTBEAT_INTERVAL, METRICS_INTERVAL, SCRIPT_POLL_INTERVAL in *.
    repeat split; [apply H1 | apply H2 | apply H3]; lia.
Qed.

Lemma first_iteration_runs_all_duties_witness :
  attempted is_heartbeat_call (register env_ok w0).2
    (poll_and_execute_scripts env_ok
       (collect_and_push_metrics env_ok
          (heartbeat env_ok (register env_ok w0).2).2).2).2.
Proof.
  refine (proj1 (proj2 (proj2
    (first_iteration_runs_all_duties env_ok 0 w0 (register env_ok w0).2 _ _ _)))).
  - reflexivity.
  - reflexivity.
  - vm_compute. discriminate.
Defined.

(** ** Registration *)

Lemma register_spec env w :
  register env w
  = (Ok (accepted (http env w (register_request env)).1),
     registered_world env w).
Proof.
  unfold register, registered_world, try_except, bind.
  fold (register_request env).
  unfold session_request, after_http.
  destruct (http env w (register_request env)) as [[msg | resp] d]; simpl;
    [reflexivity |].
  destruct (status_code resp =? 200); simpl; [| reflexivity].
  unfold resp_json. destruct (resp_body resp); reflexivity.
Qed.

Lemma trace_registered_world env w :
  trace (registered_world env w)
  = (trace w ++ [EHttp (clock w) (register_request env)
                   (http env w (register_request env)).1])%list.
Proof.
  unfold registered_world.
  destruct (http env w (register_request env)) as [o d]. simpl.
  destruct (accepted o); simpl; apply trace_after_http.
Qed.

Lemma registered_before_duties_true tr :
  registered_before_duties true tr = true.
Proof.
  induction tr as [| e tr IH]; simpl; [reflexivity |].
  destruct (is_duty_call e); exact IH.
Qed.

(** [run], by the answers to its register calls. *)
Lemma run_unfold env fuel w :
  run env fuel w
  = let w1 := registered_world env w in
    if accepted (http env w (register_request env)).1
    then run_loop env fuel (Schedule 0 0 0) w1
    else
      let w2 := advance env 30 (log (ESleep (clock w1) 30) w1) in
      let w3 := registered_world env w2 in
      if accepted (http env w2 (register_request env)).1
      then run_loop env fuel (Schedule 0 0 0) w3
      else (Raise (Exn (SystemExit 1) ""), log (EExit (clock w3) 1) w3).
Proof.
  unfold run. unfold bind at 1. rewrite register_spec.
  destruct (accepted (http env w (register_request env)).1); simpl negb; cbv iota.
  - reflexivity.
  - cbv zeta. unfold bind at 1. unfold bind at 1. unfold time_sleep at 1.
    unfold bind at 1. rewrite register_spec.
    destruct (accepted (http env _ (register_request env)).1); reflexivity.
Qed.

(** ** C5: duties and the agent's identity *)

(** C5, as stated, fails: an answer with status 200 whose JSON object has
    no agent_id makes [register] succeed with agent_id None, and the loop
    then runs its duties without an identity. *)
Lemma register_succeeds_without_agent_id :
  register env_ok w0 = (Ok true, registered_world env_ok w0)
  /\ agent_id (registered_world env_ok w0) = None
  /\ ~ register_yields_identity env_ok w0
  /\ ~ no_duty_without_identity env_ok_5s 10 w0.
Proof.
  split; [reflexivity |]. split; [reflexivity |]. split.
  - intros H. destruct (H _ eq_refl) as [a Ha]. discriminate Ha.
  - intros H. unfold no_duty_without_identity in H.
    assert (Hd : existsb is_duty_call (trace (run env_ok_5s 10 w0).2) = true)
      by (vm_compute; reflexivity).
    destruct (H Hd) as [a Ha]. vm_compute in Ha. discriminate Ha.
Qed.

(** C5 (amended): [register] always returns; it returns True exactly when
    the answer has status 200 and a JSON object as body, and agent_id is
    then whatever that object holds under agent_id, possibly nothing; in a
    run of the process every duty call comes after a register call that
    returned True. *)
Theorem duties_follow_registration env fuel t0 :
  (forall w,
     let o := (http env w (register_request env)).1 in
     (register env w).1 = Ok (accepted o)
     /\ agent_id (register env w).2
        = if accepted o then parsed_agent_id o else agent_id w)
  /\ registered_before_duties false
       (trace (run env fuel (initial_world t0)).2) = true.
Proof.
  split.
  - intros w o. rewrite register_spec. split; [reflexivity |].
    subst o. unfold registered_world. simpl.
    destruct (http env w (register_request env)) as [o d]. simpl.
    destruct (accepted o); [reflexivity |].
    unfold after_http. rewrite agent_id_advance. reflexivity.
  - set (wi := initial_world t0). rewrite run_unfold. cbv zeta.
    pose proof (trace_registered_world env wi) as T1.
    remember (http env wi (register_request env)).1 as o1 eqn:Ho1.
    remember (registered_world env wi) as w1 eqn:Hw1.
    destruct (accepted o1) eqn:A1.
    + destruct (extends_run_loop env fuel (Schedule 0 0 0) w1) as [evs Hevs].
      rewrite Hevs, T1. unfold register_request. simpl. rewrite A1. simpl.
      apply registered_before_duties_true.
    + remember (advance env 30 (log (ESleep (clock w1) 30) w1)) as w2 eqn:Hw2.
      pose proof (trace_registered_world env w2) as T2.
      remember (http env w2 (register_request env)).1 as o2 eqn:Ho2.
      remember (registered_world env w2) as w3 eqn:Hw3.
      assert (Tw2 : trace w2 = [EHttp (clock wi) (register_request env) o1;
                                ESleep (clock w1) 30]).
      { rewrite Hw2, trace_advance. simpl. rewrite T1. reflexivity. }
      destruct (accepted o2) eqn:A2.
      * destruct (extends_run_loop env fuel (Schedule 0 0 0) w3) as [evs Hevs].
        rewrite Hevs, T2, Tw2. unfold register_request. simpl.
        rewrite A1, A2. simpl.
        apply registered_before_duties_true.
      * simpl. rewrite T2, Tw2. reflexivity.
Qed.

(** ** The loop, one iteration at a time *)

Lemma run_loop_done env fuel s w :
  running w = false -> run_loop env fuel s w = (Ok tt, w).
Proof. intros H. destruct fuel; simpl; rewrite H; reflexivity. Qed.

Lemma run_loop_out_of_fuel env s w :
  running w = true -> run_loop env 0 s w = (OutOfFuel, w).
Proof. intros H. simpl. rewrite H. reflexivity. Qed.

Lemma run_loop_step env fuel s w :
  running w = true ->
  run_loop env (S fuel) s w
  = run_loop env fuel (stamp (clock w) s) (slept env 1 (tick_world env s w)).
Proof.
  intros H. cbn [run_loop]. rewrite H.
  unfold bind at 1. rewrite tick_spec. reflexivity.
Qed.

(** ** Time and the shutdown signal *)

Lemma flagged_advance env d w : flagged env (advance env d w).
Proof.
  unfold flagged, advance. destruct (sigterm env) as [t |]; [| exact I].
  simpl. intros H. destruct (t <=? clock w + d) eqn:E; [reflexivity |].
  apply Z.leb_gt in E. simpl in H. lia.
Qed.

Lemma forward_refl env w : forward env w w.
Proof. split; [lia | tauto]. Qed.

Lemma forward_trans env w1 w2 w3 :
  forward env w1 w2 -> forward env w2 w3 -> forward env w1 w3.
Proof. intros [H1 F1] [H2 F2]. split; [lia | tauto]. Qed.

Lemma forward_log env e w : forward env w (log e w).
Proof. split; [simpl; lia | unfold flagged; simpl; tauto]. Qed.

Lemma forward_advance env d w : 0 <= d -> forward env w (advance env d w).
Proof.
  intros Hd. split; [rewrite clock_advance; lia |].
  intros _. apply flagged_advance.
Qed.

Section Forward.

Variable env : Env.
Hypothesis Hnonneg : nonneg_durations env.

Lemma forward_session_request r : respects (forward env) (session_request env r).
Proof.
  intros w. unfold session_request.
  destruct Hnonneg as (Hh & _ & _). specialize (Hh w r).
  destruct (http env w r) as [[msg | resp] d]; simpl in *;
    (eapply forward_trans; [apply forward_log | apply forward_advance; exact Hh]).
Qed.

Lemma forward_subprocess_run argv :
  respects (forward env) (subprocess_run env argv 300).
Proof.
  intros w. unfold subprocess_run.
  destruct Hnonneg as (_ & Hp & _). specialize (Hp w argv).
  destruct (proc env w argv) as [msg | d rc out err]; simpl; [apply forward_log |].
  specialize (Hp d rc out err eq_refl).
  destruct (300 <? d); simpl;
    (eapply forward_trans; [apply forward_log | apply forward_advance; lia]).
Qed.

Lemma forward_psutil_sample : respects (forward env) (psutil_sample env).
Proof.
  intros w. unfold psutil_sample.
  destruct Hnonneg as (_ & _ & Hs). specialize (Hs w).
  destruct (sample env w) as [[msg | s] d]; simpl in *;
    (eapply forward_trans; [apply forward_log | apply forward_advance; exact Hs]).
Qed.

Lemma forward_time_sleep d : 0 < d -> respects (forward env) (time_sleep env d).
Proof.
  intros Hd w. simpl.
  eapply forward_trans; [apply forward_log | apply forward_advance; lia].
Qed.

Lemma forward_set_agent_id a : respects (forward env) (set_agent_id a).
Proof. intros w. split; [simpl; lia | unfold flagged; simpl; tauto]. Qed.

Lemma forward_sys_exit A c : respects (forward env) (@sys_exit A c).
Proof. intros w. apply forward_log. Qed.

Lemma forward_tick s : respects (forward env) (tick env s).
Proof.
  apply respects_tick;
    eauto using forward_refl, forward_trans, forward_session_request,
      forward_subprocess_run, forward_psutil_sample, forward_set_agent_id.
Qed.

(** Once the signal has arrived the loop ends, after at most one iteration
    per second that was left. *)
Lemma run_loop_stops t fuel s w :
  sigterm env = Some t ->
  flagged env w ->
  t - clock w <= Z.of_nat fuel ->
  (run_loop env fuel s w).1 = Ok tt.
Proof.
  intros Hsig. revert s w. induction fuel as [| fuel IH]; intros s w Hf Hfuel;
    (destruct (running w) eqn:Hrun; [| now rewrite run_loop_done]);
    assert (Hlt : clock w < t)
      by (destruct (Z.lt_ge_cases (clock w) t) as [|Hge]; [assumption |];
          unfold flagged in Hf; rewrite Hsig in Hf;
          rewrite Hf in Hrun by lia; discriminate).
  - lia.
  - rewrite run_loop_step by assumption.
    destruct (forward_tick s w) as [Hc _]. rewrite tick_spec in Hc. simpl in Hc.
    apply IH.
    + apply flagged_advance.
    + unfold slept. rewrite clock_advance. simpl. lia.
Qed.

End Forward.

Lemma flagged_registered_world env w : flagged env (registered_world env w).
Proof.
  unfold registered_world.
  destruct (http env w (register_request env)) as [o d].
  pose proof (flagged_advance env d (log (EHttp (clock w) (register_request env) o) w)) as H.
  unfold after_http. destruct (accepted o); [| exact H].
  unfold flagged in *. destruct (sigterm env); [exact H | exact I].
Qed.

Lemma clock_registered_world env w :
  nonneg_durations env -> clock w <= clock (registered_world env w).
Proof.
  intros (Hh & _ & _). unfold registered_world. specialize (Hh w (register_request env)).
  destruct (http env w (register_request env)) as [o d]. simpl in Hh.
  destruct (accepted o); simpl; unfold after_http; rewrite clock_advance; simpl; lia.
Qed.

(** The loop returns only with the flag down, and never raises. *)
Lemma run_loop_result env fuel s w :
  ((run_loop env fuel s w).1 = Ok tt
   /\ running (run_loop env fuel s w).2 = false)
  \/ (run_loop env fuel s w).1 = OutOfFuel.
Proof.
  revert s w. induction fuel as [| fuel IH]; intros s w;
    (destruct (running w) eqn:Hrun; [| rewrite run_loop_done by assumption; auto]).
  - rewrite run_loop_out_of_fuel by assumption. auto.
  - rewrite run_loop_step by assumption. apply IH.
Qed.

(** *** The flag is lowered by the handler only *)

Lemma handled_refl env w : handled env w w.
Proof. unfold handled. auto. Qed.

Lemma handled_trans env w1 w2 w3 :
  handled env w1 w2 -> handled env w2 w3 -> handled env w1 w3.
Proof. unfold handled. intros H1 H2 H3. destruct (H2 H3); auto. Qed.

Lemma handled_log env e w : handled env w (log e w).
Proof. unfold handled. simpl. auto. Qed.

Lemma handled_advance env d w : handled env w (advance env d w).
Proof.
  unfold handled, advance. destruct (sigterm env) as [t |]; [| simpl; auto].
  intros _. right. eexists. reflexivity.
Qed.

Lemma handled_session_request env r : respects (handled env) (session_request env r).
Proof.
  intros w. unfold session_request.
  destruct (http env w r) as [[msg | resp] d]; simpl;
    (eapply handled_trans; [apply handled_log | apply handled_advance]).
Qed.

Lemma handled_subprocess_run env argv t :
  respects (handled env) (subprocess_run env argv t).
Proof.
  intros w. unfold subprocess_run.
  destruct (proc env w argv) as [msg | d rc out err]; simpl; [apply handled_log |].
  destruct (t <? d); simpl;
    (eapply handled_trans; [apply handled_log | apply handled_advance]).
Qed.

Lemma handled_psutil_sample env : respects (handled env) (psutil_sample env).
Proof.
  intros w. unfold psutil_sample.
  destruct (sample env w) as [[msg | s] d]; simpl;
    (eapply handled_trans; [apply handled_log | apply handled_advance]).
Qed.

Lemma handled_time_sleep env d : respects (handled env) (time_sleep env d).
Proof.
  intros w. simpl. eapply handled_trans; [apply handled_log | apply handled_advance].
Qed.

Lemma handled_set_agent_id env a : respects (handled env) (set_agent_id a).
Proof. intros w. unfold handled. simpl. auto. Qed.

Lemma handled_sys_exit env A c : respects (handled env) (@sys_exit A c).
Proof. intros w. apply handled_log. Qed.

Lemma handled_run env fuel : respects (handled env) (run env fuel).
Proof.
  apply respects_run;
    eauto using handled_refl, handled_trans, handled_session_request,
      handled_subprocess_run, handled_psutil_sample, handled_time_sleep,
      handled_set_agent_id, handled_sys_exit.
Qed.

(** ** C3: registration, retry and exit status *)

Lemma register_inv env w b w' :
  register env w = (Ok b, w') ->
  accepted (http env w (register_request env)).1 = b
  /\ w' = registered_world env w.
Proof. rewrite register_spec. intros H. inversion H. split; reflexivity. Qed.

(** C3: a first register call that succeeds leads straight into the loop;
    after a failed one the agent sleeps 30 seconds and calls register once
    more; if that call succeeds the loop starts, if it fails the process
    exits with status 1, having made exactly these two register calls.
    Status 0 is returned only with the running flag lowered by the signal
    handler, and status 1 only after two failed register calls; once a
    signal has arrived the process does end, with one of the two. *)
Theorem registration_retry env fuel w :
  (forall w1, register env w = (Ok true, w1) ->
     run env fuel w = run_loop env fuel (Schedule 0 0 0) w1)
  /\ (forall w1, register env w = (Ok false, w1) ->
        let w2 := (time_sleep env 30 w1).2 in
        clock w2 = clock w1 + 30
        /\ (forall w3, register env w2 = (Ok true, w3) ->
              run env fuel w = run_loop env fuel (Schedule 0 0 0) w3)
        /\ (forall w3, register env w2 = (Ok false, w3) ->
              run env fuel w
              = (Raise (Exn (SystemExit 1) ""), log (EExit (clock w3) 1) w3)
              /\ exit_status (run env fuel w).1 = Some 1
              /\ exists o1 o2,
                   events_since w (run env fuel w).2
                   = [EHttp (clock w) (register_request env) o1;
                      ESleep (clock w1) 30;
                      EHttp (clock w1 + 30) (register_request env) o2;
                      EExit (clock w3) 1]))
  /\ (exit_status (run env fuel w).1 = Some 0 ->
        running (run env fuel w).2 = false
        /\ (running w = true -> is_Some (sigterm env)))
  /\ (exit_status (run env fuel w).1 = Some 1 ->
        (register env w).1 = Ok false
        /\ (register env (time_sleep env 30 (register env w).2).2).1 = Ok false)
  /\ (forall t, nonneg_durations env -> sigterm env = Some t ->
        t - clock w <= Z.of_nat fuel ->
        exit_status (run env fuel w).1 = Some 0
        \/ exit_status (run env fuel w).1 = Some 1).
Proof.
  pose proof (run_unfold env fuel w) as Hrun. cbv zeta in Hrun.
  split; [| split; [| split; [| split]]].
  - intros w1 H. apply register_inv in H as [Ha ->]. now rewrite Ha in Hrun.
  - intros w1 H w2. apply register_inv in H as [Ha ->]. rewrite Ha in Hrun.
    split; [unfold w2; simpl; now rewrite clock_advance |].
    split.
    + intros w3 H. apply register_inv in H as [Ha2 ->].
      unfold w2 in Ha2. simpl in Ha2. now rewrite Ha2 in Hrun.
    + intros w3 H. apply register_inv in H as [Ha2 ->].
      unfold w2 in *. simpl in Ha2 |- *. rewrite Ha2 in Hrun.
      split; [exact Hrun |]. split; [now rewrite Hrun |].
      rewrite Hrun. do 2 eexists. apply events_since_app. simpl.
      rewrite !trace_registered_world, trace_advance, clock_advance. simpl.
      rewrite trace_registered_world, <- !app_assoc. reflexivity.
  - intros H0.
    assert (Hloop : forall w',
              exit_status (run_loop env fuel (Schedule 0 0 0) w').1 = Some 0 ->
              running (run_loop env fuel (Schedule 0 0 0) w').2 = false).
    { intros w' H.
      destruct (run_loop_result env fuel (Schedule 0 0 0) w') as [[_ Hr] | Ho];
        [exact Hr | rewrite Ho in H; discriminate]. }
    assert (Hdown : running (run env fuel w).2 = false).
    { rewrite Hrun in H0 |- *.
      destruct (accepted (http env w (register_request env)).1);
        [now apply Hloop |].
      destruct (accepted (http env _ (register_request env)).1);
        [now apply Hloop | discriminate H0]. }
    split; [exact Hdown |]. intros Hw.
    destruct (handled_run env fuel w Hdown) as [Hc | Hc];
      [congruence | exact Hc].
  - intros H1. rewrite Hrun in H1. rewrite !register_spec. simpl.
    destruct (accepted (http env w (register_request env)).1).
    + destruct (run_loop_result env fuel (Schedule 0 0 0) (registered_world env w))
        as [[Hr _] | Ho]; rewrite ?Hr, ?Ho in H1; discriminate.
    + split; [reflexivity |].
      destruct (accepted (http env _ (register_request env)).1); [| reflexivity].
      destruct (run_loop_result env fuel (Schedule 0 0 0)
                  (registered_world env
                     (advance env 30
                        (log (ESleep (clock (registered_world env w)) 30)
                           (registered_world env w)))))
        as [[Hr _] | Ho]; rewrite ?Hr, ?Ho in H1; discriminate.
  - intros t Hnn Hsig Hfuel. rewrite Hrun.
    pose proof (clock_registered_world env w Hnn) as Hc1.
    destruct (accepted (http env w (register_request env)).1).
    + left. rewrite (run_loop_stops env Hnn t); auto using flagged_registered_world.
      lia.
    + destruct (accepted (http env _ (register_request env)).1); [| right; reflexivity].
      left.
      set (w2 := advance env 30 _).
      pose proof (clock_registered_world env w2 Hnn) as Hc2.
      assert (clock w2 = clock (registered_world env w) + 30)
        by (unfold w2; now rewrite clock_advance).
      rewrite (run_loop_stops env Hnn t); auto using flagged_registered_world.
      lia.
Qed.

Lemma registration_retry_witness :
  exit_status (run env_down 5 w0).1 = Some 1.
Proof.
  refine (proj1 (proj2 (proj2 (proj2 (proj1 (proj2
    (registration_retry env_down 5 w0)) (registered_world env_down w0) _))
    (registered_world env_down
       (time_sleep env_down 30 (registered_world env_down w0)).2) _))).
  - reflexivity.
  - reflexivity.
Defined.

(** ** C9: a batch of tasks *)

(** With its reports delivered, a task is launched, reported once, and the
    runner returns. *)
Lemma execute_script_delivered env script eid content name w :
  has_keys script eid content name ->
  reports_delivered env eid ->
  exists w' t' rc out err o,
    _execute_script env script w = (Ok tt, w')
    /\ trace w'
       = (trace w
          ++ [ESubprocess (clock w)
                (interpreter_argv env (script_type_of script) content) 300;
              EHttp t' (ResultReq eid rc out err) o])%list.
Proof.
  intros (Hid & Hc & Hn) Hdel.
  destruct (proc env w (interpreter_argv env (script_type_of script) content)) as [msg | d rc out err] eqn:Hp.
  - rewrite (execute_script_launch_raises env script eid content name Hid Hc Hn w msg Hp).
    destruct (Hdel (launched (interpreter_argv env (script_type_of script) content) w) (-1) "" (Some msg)) as (resp & dt & Hh).
    unfold result_of_failure. rewrite (send_report_delivered _ _ _ _ _ Hh).
    do 6 eexists. split; [reflexivity |].
    rewrite trace_after_http. unfold launched. simpl.
    rewrite <- app_assoc. reflexivity.
  - destruct (Z.lt_ge_cases 300 d) as [Hd | Hd].
    + rewrite (execute_script_timed_out env script eid content name Hid Hc Hn
                 w d rc out err Hp Hd).
      destruct (Hdel (advance env 300 (launched (interpreter_argv env (script_type_of script) content) w))
                  (-1) "" (Some "Execution timed out")) as (resp & dt & Hh).
      unfold result_of_timeout. rewrite (send_report_delivered _ _ _ _ _ Hh).
      do 6 eexists. split; [reflexivity |].
      rewrite trace_after_http, trace_advance. unfold launched. simpl.
      rewrite <- app_assoc. reflexivity.
    + destruct (Hdel (advance env d (launched (interpreter_argv env (script_type_of script) content) w))
                  rc (slice_to 50000 out)
                  (if truthy err then Some (slice_to 10000 err) else None))
        as (resp & dt & Hh).
      rewrite (execute_script_completed env script eid content name Hid Hc Hn
                 w d rc out err resp dt Hp Hd Hh).
      do 6 eexists. split; [reflexivity |].
      rewrite trace_after_http, trace_advance. unfold launched. simpl.
      rewrite <- app_assoc. reflexivity.
Qed.

Lemma for_each_executes env tasks w :
  Forall well_formed tasks ->
  (forall eid, reports_delivered env eid) ->
  exists w',
    for_each tasks (_execute_script env) w = (Ok tt, w')
    /\ extends w w'
    /\ executed_in_order env tasks (events_since w w').
Proof.
  intros Hwf Hdel. revert w.
  induction Hwf as [| task tasks (eid & content & name & Hk) _ IH]; intros w.
  - exists w. split; [reflexivity |]. split; [apply extends_refl |].
    unfold events_since. rewrite drop_all. exact I.
  - destruct (execute_script_delivered env task eid content name w Hk (Hdel eid))
      as (w1 & t' & rc & out & err & o & Hrun & Htr).
    destruct (IH w1) as (w2 & Hrest & [evs Hevs] & Hord).
    exists w2. simpl. unfold bind. rewrite Hrun, Hrest.
    split; [reflexivity |].
    assert (Htr2 : trace w2
                   = (trace w
                      ++ ESubprocess (clock w)
                           (interpreter_argv env (script_type_of task) content) 300
                         :: EHttp t' (ResultReq eid rc out err) o :: evs)%list).
    { rewrite Hevs, Htr, <- app_assoc. reflexivity. }
    split; [eexists; exact Htr2 |].
    rewrite (events_since_app _ _ _ Htr2).
    rewrite (events_since_app _ _ _ Hevs) in Hord.
    destruct Hk as (Hid & Hc & _).
    split; [exact Hid |]. split; [eauto | exact Hord].
Qed.

(** C9, as stated, fails: when the report of a task that timed out raises,
    the exception leaves the runner, the poll's [except] clause swallows
    it, and the tasks after it in the batch are not started. *)
Lemma batch_cut_short :
  Forall well_formed [task1; task2]
  /\ (exists o1 o2,
        events_since w0 (poll_and_execute_scripts env_batch_lossy w0).2
        = [EHttp (clock w0) ScriptsReq o1;
           ESubprocess (clock w0) ["bash"; "-c"; "echo ok"] 300;
           EHttp (clock w0 + 300)
             (ResultReq "e1" (-1) "" (Some "Execution timed out")) o2])
  /\ ~ poll_executes_all env_batch_lossy [task1; task2] w0.
Proof.
  split.
  { repeat constructor.
    - exists "e1", "echo ok", "probe". repeat split; reflexivity.
    - exists "e2", "echo again", "probe2". repeat split; reflexivity. }
  assert (H : events_since w0 (poll_and_execute_scripts env_batch_lossy w0).2
              = [EHttp (clock w0) ScriptsReq
                   (HttpReturns (Response 200 (JArray [task1; task2]) ""));
                 ESubprocess (clock w0) ["bash"; "-c"; "echo ok"] 300;
                 EHttp (clock w0 + 300)
                   (ResultReq "e1" (-1) "" (Some "Execution timed out"))
                   (HttpRaises "Connection reset")])
    by (vm_compute; reflexivity).
  split; [do 2 eexists; exact H |].
  intros (o & evs & Hev & Hord). rewrite H in Hev.
  inversion Hev; subst. simpl in Hord. tauto.
Qed.

(** C9 (amended): when the scripts request is answered with status 200 and
    an array of tasks that all carry execution_id, content and script_name,
    and no report-result request raises, the poll executes every task of
    the array in its order: each task's interpreter is launched and its
    result reported before the next task is launched, and no task is left
    out. *)
Theorem poll_executes_tasks_in_order env w resp d tasks :
  http env w ScriptsReq = (HttpReturns resp, d) ->
  status_code resp = 200 ->
  resp_body resp = JArray tasks ->
  Forall well_formed tasks ->
  (forall eid, reports_delivered env eid) ->
  poll_executes_all env tasks w.
Proof.
  intros Hh Hst Hbody Hwf Hdel.
  destruct (for_each_executes env tasks
              (after_http env ScriptsReq (HttpReturns resp) d w) Hwf Hdel)
    as (w' & Hrun & [evs Hevs] & Hord).
  assert (Hpoll : poll_and_execute_scripts env w = (Ok tt, w')).
  { unfold poll_and_execute_scripts, try_except. unfold bind at 1.
    rewrite (session_request_returns _ _ _ _ _ Hh), Hst. simpl.
    unfold bind at 1. unfold resp_json. rewrite Hbody.
    unfold ret at 1. unfold bind at 1. simpl. rewrite Hrun. reflexivity. }
  exists (HttpReturns resp), evs. rewrite Hpoll. simpl. split.
  - apply events_since_app. rewrite Hevs, trace_after_http, <- app_assoc.
    reflexivity.
  - rewrite (events_since_app _ _ _ Hevs) in Hord. exact Hord.
Qed.

Lemma poll_executes_tasks_in_order_witness :
  poll_executes_all env_batch [task1; task2] w0.
Proof.
  apply (poll_executes_tasks_in_order env_batch w0
           (Response 200 (JArray [task1; task2]) "") 0 [task1; task2]).
  - reflexivity.
  - reflexivity.
  - reflexivity.
  - repeat constructor.
    + exists "e1", "echo ok", "probe". repeat split; reflexivity.
    + exists "e2", "echo again", "probe2". repeat split; reflexivity.
  - intros eid w rc out err. exists ok_response, 0. reflexivity.
Defined.

(** ** Translation in time *)

Section Shift.

Variable k : Z.
Variables env env' : Env.
Hypothesis Hsh : shifted k env env'.

Lemma shift_log e w :
  shift_world k (log e w) = log (shift_event k e) (shift_world k w).
Proof. unfold shift_world, log. simpl. now rewrite map_app. Qed.

Lemma shift_advance d w :
  shift_world k (advance env d w) = advance env' d (shift_world k w).
Proof.
  unfold advance. rewrite (sh_sigterm _ _ _ Hsh).
  destruct (sigterm env) as [t |]; simpl.
  - replace (t + k <=? clock w + k + d) with (t <=? clock w + d)
      by (destruct (Z.leb_spec t (clock w + d)); symmetry;
          [apply Z.leb_le | apply Z.leb_gt]; lia).
    destruct (t <=? clock w + d); unfold shift_world, signal_handler; simpl;
      f_equal; lia.
  - unfold shift_world. simpl. f_equal. lia.
Qed.

Lemma equivariant_ret {A} (f : A -> A) (a : A) :
  equivariant k f (ret a) (ret (f a)).
Proof. intros w. reflexivity. Qed.

Lemma equivariant_raise {A} (f : A -> A) e :
  equivariant k f (raise e) (raise e).
Proof. intros w. reflexivity. Qed.

Lemma equivariant_bind {A B} (fa : A -> A) (fb : B -> B)
    (m m' : M A) (g g' : A -> M B) :
  equivariant k fa m m' ->
  (forall a, equivariant k fb (g a) (g' (fa a))) ->
  equivariant k fb (bind m g) (bind m' g').
Proof.
  intros Hm Hg w. unfold bind. rewrite (Hm w).
  destruct (m w) as [[a | e | ] w1]; simpl; [apply Hg | reflexivity | reflexivity].
Qed.

Lemma equivariant_bind_id {A B} (fb : B -> B) (m m' : M A) (g g' : A -> M B) :
  equivariant k id m m' ->
  (forall a, equivariant k fb (g a) (g' a)) ->
  equivariant k fb (bind m g) (bind m' g').
Proof. intros Hm Hg. apply (equivariant_bind id fb); assumption. Qed.

Lemma equivariant_try_except {A} (f : A -> A) (body body' : M A) hs hs' :
  equivariant k f body body' ->
  Forall2 (fun h h' => h.1 = h'.1 /\ forall e, equivariant k f (h.2 e) (h'.2 e))
          hs hs' ->
  equivariant k f (try_except body hs) (try_except body' hs').
Proof.
  intros Hb Hh w. unfold try_except. rewrite (Hb w).
  destruct (body w) as [[a | e | ] w1]; simpl; try reflexivity.
  induction Hh as [| [p h] [p' h'] hs hs' [Hp He] _ IH]; simpl in *.
  - reflexivity.
  - subst p'. destruct (p e); [apply He | exact IH].
Qed.

Lemma equivariant_for_each {A} (xs : list A) (body body' : A -> M unit) :
  (forall x, equivariant k id (body x) (body' x)) ->
  equivariant k id (for_each xs body) (for_each xs body').
Proof.
  intros Hb. induction xs as [| x xs IH]; simpl.
  - apply (equivariant_ret id).
  - apply equivariant_bind_id; [apply Hb | intros _; exact IH].
Qed.

Lemma equivariant_time_time :
  equivariant k (fun t => t + k) time_time time_time.
Proof. intros w. reflexivity. Qed.

Lemma equivariant_time_sleep d :
  equivariant k id (time_sleep env d) (time_sleep env' d).
Proof.
  intros w. unfold time_sleep. simpl.
  now rewrite shift_advance, shift_log.
Qed.

Lemma equivariant_sys_exit {A} (f : A -> A) c :
  equivariant k f (sys_exit c) (sys_exit c).
Proof. intros w. unfold sys_exit. simpl. now rewrite shift_log. Qed.

Lemma equivariant_set_agent_id a :
  equivariant k id (set_agent_id a) (set_agent_id a).
Proof. intros w. reflexivity. Qed.

Lemma equivariant_session_request r :
  equivariant k id (session_request env r) (session_request env' r).
Proof.
  intros w. unfold session_request. rewrite (sh_http _ _ _ Hsh).
  destruct (http env w r) as [[msg | resp] d]; simpl;
    now rewrite shift_advance, shift_log.
Qed.

Lemma equivariant_subprocess_run argv t :
  equivariant k id (subprocess_run env argv t) (subprocess_run env' argv t).
Proof.
  intros w. unfold subprocess_run. rewrite (sh_proc _ _ _ Hsh).
  destruct (proc env w argv) as [msg | d rc out err]; simpl;
    [now rewrite shift_log |].
  destruct (t <? d); simpl; now rewrite shift_advance, shift_log.
Qed.

Lemma equivariant_psutil_sample :
  equivariant k id (psutil_sample env) (psutil_sample env').
Proof.
  intros w. unfold psutil_sample. rewrite (sh_sample _ _ _ Hsh).
  destruct (sample env w) as [[msg | s] d]; simpl;
    now rewrite shift_advance, shift_log.
Qed.

Lemma equivariant_getitem d key : equivariant k id (getitem d key) (getitem d key).
Proof. intros w. unfold getitem. destruct (d !! key); reflexivity. Qed.

Lemma equivariant_resp_json r : equivariant k id (resp_json r) (resp_json r).
Proof. intros w. unfold resp_json. destruct (resp_body r); reflexivity. Qed.

Lemma equivariant_json_get j key :
  equivariant k id (json_get j key) (json_get j key).
Proof. intros w. destruct j; reflexivity. Qed.

Lemma equivariant_json_iter j : equivariant k id (json_iter j) (json_iter j).
Proof.
  intros w. destruct j; try reflexivity.
  unfold json_iter. case_decide; reflexivity.
Qed.

(** One clause [except C: h] on each side. *)
Lemma handlers_cons {A} (f : A -> A) p (h h' : exn -> M A) hs hs' :
  (forall e, equivariant k f (h e) (h' e)) ->
  Forall2 (fun h h' : (exn -> bool) * (exn -> M A) =>
             h.1 = h'.1 /\ forall e, equivariant k f (h.2 e) (h'.2 e))
          hs hs' ->
  Forall2 (fun h h' : (exn -> bool) * (exn -> M A) =>
             h.1 = h'.1 /\ forall e, equivariant k f (h.2 e) (h'.2 e))
          ((p, h) :: hs) ((p, h') :: hs').
Proof. intros H Hs. constructor; [split; [reflexivity | exact H] | exact Hs]. Qed.

Ltac prove_equivariant :=
  repeat first
    [ solve [auto using equivariant_time_sleep, equivariant_set_agent_id,
               equivariant_session_request, equivariant_subprocess_run,
               equivariant_psutil_sample, equivariant_getitem,
               equivariant_resp_json, equivariant_json_get,
               equivariant_json_iter]
    | apply (equivariant_ret id)
    | apply equivariant_bind_id; [| intros ?]
    | apply equivariant_try_except
    | apply handlers_cons; [intros ? |]
    | apply Forall2_nil
    | apply equivariant_for_each; intros ?
    | match goal with
      | |- equivariant _ _ (if ?b then _ else _) (if ?b then _ else _) =>
          destruct b
      end ].

Lemma equivariant_register : equivariant k id (register env) (register env').
Proof.
  unfold register, os_type.
  rewrite (sh_token _ _ _ Hsh), (sh_node _ _ _ Hsh), (sh_platform _ _ _ Hsh).
  prove_equivariant.
Qed.

Lemma equivariant_heartbeat : equivariant k id (heartbeat env) (heartbeat env').
Proof.
  unfold heartbeat. apply equivariant_try_except; [| prove_equivariant].
  apply (equivariant_bind (fun t => t + k) id); [apply equivariant_time_time |].
  intros now. rewrite (sh_boot _ _ _ Hsh).
  replace (now + k - (boot_time env + k)) with (now - boot_time env) by lia.
  prove_equivariant.
Qed.

Lemma equivariant_collect_and_push_metrics :
  equivariant k id (collect_and_push_metrics env) (collect_and_push_metrics env').
Proof.
  unfold collect_and_push_metrics. apply equivariant_try_except; [| prove_equivariant].
  apply equivariant_bind_id; [apply equivariant_psutil_sample |].
  intros s.
  apply (equivariant_bind (fun t => t + k) id); [apply equivariant_time_time |].
  intros now. unfold build_metrics. rewrite (sh_boot _ _ _ Hsh).
  replace (now + k - (boot_time env + k)) with (now - boot_time env) by lia.
  prove_equivariant.
Qed.

Lemma equivariant_execute_script script :
  equivariant k id (_execute_script env script) (_execute_script env' script).
Proof.
  unfold _execute_script, run_interpreter. rewrite (sh_executable _ _ _ Hsh).
  prove_equivariant.
Qed.

Lemma equivariant_poll_and_execute_scripts :
  equivariant k id (poll_and_execute_scripts env) (poll_and_execute_scripts env').
Proof.
  unfold poll_and_execute_scripts.
  pose proof equivariant_execute_script. prove_equivariant.
Qed.

End Shift.

(** *** The loop under translation *)

Lemma equivariant_world {A} k (f : A -> A) (m m' : M A) w :
  equivariant k f m m' -> (m' (shift_world k w)).2 = shift_world k (m w).2.
Proof. intros H. now rewrite (H w). Qed.

Lemma aligned_shift k now s : aligned k now s (shift_schedule k s).
Proof.
  unfold aligned, shift_schedule. simpl.
  replace (now + k - (last_heartbeat s + k)) with (now - last_heartbeat s) by lia.
  replace (now + k - (last_metrics s + k)) with (now - last_metrics s) by lia.
  replace (now + k - (last_script_poll s + k)) with (now - last_script_poll s) by lia.
  tauto.
Qed.

Lemma aligned_fresh k now :
  0 <= k -> 30 <= now -> aligned k now (Schedule 0 0 0) (Schedule 0 0 0).
Proof.
  intros Hk Hnow. unfold aligned. simpl.
  unfold HEARTBEAT_INTERVAL, METRICS_INTERVAL, SCRIPT_POLL_INTERVAL.
  rewrite !Z.sub_0_r.
  replace (now >=? 30) with true by (symmetry; apply Z.geb_le; lia).
  replace (now + k >=? 30) with true by (symmetry; apply Z.geb_le; lia).
  replace (now >=? 10) with true by (symmetry; apply Z.geb_le; lia).
  replace (now + k >=? 10) with true by (symmetry; apply Z.geb_le; lia).
  repeat split; discriminate.
Qed.

Lemma stamp_aligned k now s s' :
  aligned k now s s' -> stamp (now + k) s' = shift_schedule k (stamp now s).
Proof.
  intros ((E1 & L1) & (E2 & L2) & (E3 & L3)).
  unfold stamp, shift_schedule. simpl. rewrite <- E1, <- E2, <- E3.
  destruct (now - last_heartbeat s >=? HEARTBEAT_INTERVAL);
    destruct (now - last_metrics s >=? METRICS_INTERVAL);
    destruct (now - last_script_poll s >=? SCRIPT_POLL_INTERVAL);
    rewrite ?L1, ?L2, ?L3 by reflexivity; reflexivity.
Qed.

Section ShiftLoop.

Variable k : Z.
Variables env env' : Env.
Hypothesis Hsh : shifted k env env'.

Lemma tick_world_shift s s' w :
  aligned k (clock w) s s' ->
  tick_world env' s' (shift_world k w) = shift_world k (tick_world env s w).
Proof.
  intros ((E1 & _) & (E2 & _) & (E3 & _)).
  unfold tick_world. cbv zeta.
  change (clock (shift_world k w)) with (clock w + k).
  rewrite <- E1, <- E2, <- E3.
  destruct (clock w - last_heartbeat s >=? HEARTBEAT_INTERVAL);
    destruct (clock w - last_metrics s >=? METRICS_INTERVAL);
    destruct (clock w - last_script_poll s >=? SCRIPT_POLL_INTERVAL);
    rewrite ?(equivariant_world k id _ _ _ (equivariant_heartbeat k env env' Hsh));
    rewrite ?(equivariant_world k id _ _ _
                (equivariant_collect_and_push_metrics k env env' Hsh));
    rewrite ?(equivariant_world k id _ _ _
                (equivariant_poll_and_execute_scripts k env env' Hsh));
    reflexivity.
Qed.

Lemma slept_shift d w :
  slept env' d (shift_world k w) = shift_world k (slept env d w).
Proof.
  unfold slept. now rewrite (shift_advance k env env' Hsh), shift_log.
Qed.

Lemma run_loop_shift fuel s s' w :
  aligned k (clock w) s s' ->
  run_loop env' fuel s' (shift_world k w)
  = ((run_loop env fuel s w).1, shift_world k (run_loop env fuel s w).2).
Proof.
  revert s s' w. induction fuel as [| fuel IH]; intros s s' w Hal;
    destruct (running w) eqn:Hrun.
  - rewrite !run_loop_out_of_fuel by assumption. reflexivity.
  - rewrite !run_loop_done by assumption. reflexivity.
  - rewrite !run_loop_step by assumption.
    change (clock (shift_world k w)) with (clock w + k).
    rewrite (stamp_aligned _ _ _ _ Hal), (tick_world_shift _ _ _ Hal), slept_shift.
    apply IH, aligned_shift.
  - rewrite !run_loop_done by assumption. reflexivity.
Qed.

Lemma registered_world_shift w :
  registered_world env' (shift_world k w) = shift_world k (registered_world env w)
  /\ accepted (http env' (shift_world k w) (register_request env')).1
     = accepted (http env w (register_request env)).1.
Proof.
  pose proof (equivariant_register k env env' Hsh w) as H.
  rewrite !register_spec in H. simpl in H. inversion H as [[Ha Hw]].
  rewrite Hw. split; reflexivity.
Qed.

(** A run started at a clock reading of 30 or more makes, [k] seconds
    later, the same calls [k] seconds later. *)
Lemma run_shift fuel w :
  nonneg_durations env -> 0 <= k -> 30 <= clock w ->
  run env' fuel (shift_world k w)
  = ((run env fuel w).1, shift_world k (run env fuel w).2).
Proof.
  intros Hnn Hk Hclock. rewrite !run_unfold. cbv zeta.
  destruct (registered_world_shift w) as [Hw1 Ha1]. rewrite Hw1, Ha1.
  pose proof (clock_registered_world env w Hnn) as Hc1.
  destruct (accepted (http env w (register_request env)).1).
  - apply run_loop_shift, aligned_fresh; lia.
  - change (clock (shift_world k (registered_world env w)))
      with (clock (registered_world env w) + k).
    change (log (ESleep (clock (registered_world env w) + k) 30)
              (shift_world k (registered_world env w)))
      with (log (shift_event k (ESleep (clock (registered_world env w)) 30))
              (shift_world k (registered_world env w))).
    rewrite <- shift_log, <- (shift_advance k env env' Hsh).
    set (w2 := advance env 30 _).
    destruct (registered_world_shift w2) as [Hw3 Ha3]. rewrite Hw3, Ha3.
    pose proof (clock_registered_world env w2 Hnn) as Hc3.
    assert (clock w2 = clock (registered_world env w) + 30)
      by (unfold w2; now rewrite clock_advance).
    destruct (accepted (http env w2 (register_request env)).1).
    + apply run_loop_shift, aligned_fresh; lia.
    + simpl. now rewrite shift_log.
Qed.

End ShiftLoop.

(** ** C4: the reference run *)

Lemma reference_env_shifted c t0 k :
  shifted k (reference_env_sampling c t0) (reference_env_sampling c (t0 + k)).
Proof.
  constructor; simpl; try reflexivity.
  - lia.
  - intros w r. destruct r; simpl; try reflexivity.
    replace (clock w + k - (t0 + k)) with (clock w - t0) by lia. reflexivity.
  - f_equal. lia.
Qed.

Lemma reference_env_nonneg c t0 :
  0 <= c -> nonneg_durations (reference_env_sampling c t0).
Proof.
  intros Hc. repeat split; simpl.
  - intros w r. destruct r; simpl; lia.
  - intros w argv d rc out err H. unfold proc_ok in H. inversion H. lia.
  - intros w. exact Hc.
Qed.

Lemma calls_from_shift t0 k tr :
  calls_from (t0 + k) (map (shift_event k) tr) = calls_from t0 tr.
Proof.
  induction tr as [| e tr IH]; simpl; [reflexivity |].
  destruct e; simpl; rewrite IH; try reflexivity.
  f_equal. f_equal. lia.
Qed.

(** The reference run started at any clock reading of 30 or more is the
    one started at 30, moved in time. *)
Lemma reference_run_moved c fuel t0 :
  0 <= c -> 30 <= t0 ->
  (run (reference_env_sampling c t0) fuel (initial_world t0)).1
  = (run (reference_env_sampling c 30) fuel (initial_world 30)).1
  /\ trace (run (reference_env_sampling c t0) fuel (initial_world t0)).2
     = map (shift_event (t0 - 30))
           (trace (run (reference_env_sampling c 30) fuel (initial_world 30)).2).
Proof.
  intros Hc Ht0.
  assert (H : run (reference_env_sampling c (30 + (t0 - 30))) fuel
                (shift_world (t0 - 30) (initial_world 30))
              = ((run (reference_env_sampling c 30) fuel (initial_world 30)).1,
                 shift_world (t0 - 30)
                   (run (reference_env_sampling c 30) fuel (initial_world 30)).2)).
  { apply run_shift.
    - apply reference_env_shifted.
    - apply reference_env_nonneg, Hc.
    - lia.
    - unfold initial_world, clock. lia. }
  replace (30 + (t0 - 30)) with t0 in H by lia.
  replace (shift_world (t0 - 30) (initial_world 30)) with (initial_world t0) in H
    by (unfold shift_world, initial_world; simpl; f_equal; lia).
  rewrite H. split; reflexivity.
Qed.

Lemma reference_calls_moved c t0 :
  0 <= c -> 30 <= t0 ->
  reference_calls_sampling c t0 = reference_calls_sampling c 30.
Proof.
  intros Hc Ht0. unfold reference_calls_sampling.
  rewrite (proj2 (reference_run_moved c 40 t0 Hc Ht0)).
  replace t0 with (30 + (t0 - 30)) at 1 by lia.
  apply calls_from_shift.
Qed.

(** C4, as stated, fails on a wall clock: started at clock reading
    1700000000, the agent also sends a heartbeat, collects and pushes
    metrics and polls for scripts in its first iteration, and every metrics
    push, with the poll that follows it, comes one second after the
    heartbeat of its iteration, the time [psutil.cpu_percent(interval=1)]
    blocks. *)
Lemma reference_run_on_wall_clock :
  reference_calls 1700000000 = wall_clock_calls
  /\ reference_calls 1700000000 <> spec_calls.
Proof.
  assert (H : reference_calls 1700000000 = wall_clock_calls).
  { unfold reference_calls. rewrite (reference_calls_moved 1 1700000000) by lia.
    vm_compute. reflexivity. }
  split; [exact H |]. rewrite H. discriminate.
Qed.

(** C4 (amended): in the reference run started at a clock reading of 30
    or more, as on every wall clock, the agent registers once at t=0; its
    first iteration sends a heartbeat at t=0 and, after the one second the
    metrics collection blocks, pushes metrics and polls for scripts at
    t=1; it polls again at t=10 and t=20, reports exit code 0 and stdout ok
    at t=11; the iteration at t=30 sends the second heartbeat at t=30 and
    the second metrics push and the last poll at t=31; the process exits
    with status 0.  These calls are not those the specification lists. *)
Theorem reference_run t0 :
  30 <= t0 ->
  reference_calls t0 = wall_clock_calls
  /\ exit_status (run (reference_env t0) 40 (initial_world t0)).1 = Some 0
  /\ reference_calls t0 <> spec_calls.
Proof.
  intros Ht0. unfold reference_calls, reference_env.
  rewrite (reference_calls_moved 1 t0) by lia.
  rewrite (proj1 (reference_run_moved 1 40 t0 ltac:(lia) Ht0)).
  assert (H : reference_calls_sampling 1 30 = wall_clock_calls)
    by (vm_compute; reflexivity).
  rewrite H.
  split; [reflexivity | split; [vm_compute; reflexivity | discriminate]].
Qed.

Lemma reference_run_witness :
  reference_calls 1700000000 = wall_clock_calls.
Proof.
  apply (reference_run 1700000000). lia.
Defined.

(** * Further properties *)

(** ** The agent's base URL *)

Lemma rstrip_decompose c s : exists n, s = rstrip c s ++ copies n c.
Proof.
  induction s as [| a s [n IH]]; simpl.
  - exists O. reflexivity.
  - destruct (rstrip c s) as [| b r] eqn:E.
    + destruct (Ascii.eqb_spec a c) as [-> | Hne].
      * exists (S n). rewrite IH at 1. reflexivity.
      * exists n. rewrite IH at 1. reflexivity.
    + exists n. rewrite IH at 1. reflexivity.
Qed.

Lemma rstrip_last c s : last_char (rstrip c s) <> Some c.
Proof.
  induction s as [| a s IH]; simpl; [discriminate |].
  destruct (rstrip c s) as [| b r] eqn:E.
  - destruct (Ascii.eqb_spec a c) as [-> | Hne]; simpl; congruence.
  - exact IH.
Qed.

Lemma rstrip_fixed c s : last_char s <> Some c -> rstrip c s = s.
Proof.
  induction s as [| a s IH]; simpl; [reflexivity |].
  destruct s as [| b s'].
  - simpl. intros H. destruct (Ascii.eqb_spec a c) as [-> | Hne]; congruence.
  - intros H. rewrite IH by exact H. reflexivity.
Qed.

(** [__init__] keeps the server URL without its trailing slashes, all of
    them and nothing else: what it removes is a run of slashes, what it
    keeps does not end in a slash, a URL that does not end in a slash is
    kept as it is, and stripping what it keeps changes nothing; so every
    endpoint has exactly the slash of its path after the base URL.  The
    agent starts without an agent_id. *)
Theorem init_strips_trailing_slashes url token verify_ssl :
  let a := __init__ url token verify_ssl in
  (exists n, url = self_server_url a ++ copies n "/")
  /\ last_char (self_server_url a) <> Some "/"%char
  /\ (last_char url <> Some "/"%char -> self_server_url a = url)
  /\ self_server_url (__init__ (self_server_url a) token verify_ssl)
     = self_server_url a
  /\ (forall r, exists path,
        (endpoint (self_server_url a) r).2
        = self_server_url a ++ "/api/v1/agent/" ++ path)
  /\ self_agent_id a = None.
Proof.
  simpl. split; [apply rstrip_decompose |].
  split; [apply rstrip_last |].
  split; [apply rstrip_fixed |].
  split; [apply rstrip_fixed, rstrip_last |].
  split; [| reflexivity].
  intros r. destruct r; simpl; eexists; reflexivity.
Qed.

Lemma init_strips_trailing_slashes_witness :
  self_server_url (__init__ "https://overwatch.example.com" "secret" true)
  = "https://overwatch.example.com".
Proof.
  refine (proj1 (proj2 (proj2
    (init_strips_trailing_slashes "https://overwatch.example.com" "secret" true))) _).
  vm_compute. discriminate.
Defined.

(** ** A poll that has nothing to execute *)

(** When the scripts request raises, is answered with a status other than
    200, with a body that is not JSON or not a JSON array, or with an empty
    array, the poll makes no other call than that request and returns
    normally: nothing is launched, even if a non-200 answer lists tasks. *)
Theorem poll_without_tasks env w :
  hands_out_tasks (http env w ScriptsReq).1 = false ->
  poll_and_execute_scripts env w
  = (Ok tt,
     after_http env ScriptsReq (http env w ScriptsReq).1 (http env w ScriptsReq).2 w)
  /\ events_since w (poll_and_execute_scripts env w).2
     = [EHttp (clock w) ScriptsReq (http env w ScriptsReq).1].
Proof.
  intros H.
  assert (Hp : poll_and_execute_scripts env w
               = (Ok tt,
                  after_http env ScriptsReq (http env w ScriptsReq).1
                    (http env w ScriptsReq).2 w)).
  { unfold poll_and_execute_scripts, try_except. unfold bind at 1.
    unfold session_request, after_http.
    destruct (http env w ScriptsReq) as [[msg | resp] d]; simpl in *;
      [reflexivity |].
    destruct (status_code resp =? 200); simpl in *; [| reflexivity].
    unfold bind, resp_json, json_iter.
    destruct (resp_body resp) as [| obj | [| t l] |]; simpl;
      try reflexivity; try discriminate H.
    case_decide; reflexivity. }
  split; [exact Hp |]. rewrite Hp. apply events_since_app.
  simpl. apply trace_after_http.
Qed.

Lemma poll_without_tasks_witness :
  events_since w0 (poll_and_execute_scripts env_busy w0).2
  = [EHttp (clock w0) ScriptsReq (http env_busy w0 ScriptsReq).1].
Proof.
  apply (proj2 (poll_without_tasks env_busy w0 eq_refl)).
Defined.

(** ** A task with a missing key *)

Lemma missing_key_raises_before_any_call_aux env script w key :
  first_missing_key script = Some key ->
  _execute_script env script w = (Raise (Exn KeyError ("'" ++ key ++ "'")), w).
Proof.
  unfold first_missing_key, _execute_script, getitem, bind.
  destruct (script !! "execution_id") as [eid |];
    [| intros [= <-]; reflexivity].
  destruct (script !! "content") as [content |];
    [| intros [= <-]; reflexivity].
  destruct (script !! "script_name") as [name |];
    [discriminate | intros [= <-]; reflexivity].
Qed.

(** A task that lacks execution_id, content or script_name makes the
    runner raise KeyError for the first key it lacks, in this order,
    before anything is launched or reported: no call is made; a task that
    has the three keys does launch its interpreter. *)
Theorem missing_key_raises_before_any_call env script w key :
  first_missing_key script = Some key ->
  _execute_script env script w = (Raise (Exn KeyError ("'" ++ key ++ "'")), w)
  /\ events_since w (_execute_script env script w).2 = []
  /\ (forall script', first_missing_key script' = None ->
        exists argv evs,
          events_since w (_execute_script env script' w).2
          = ESubprocess (clock w) argv 300 :: evs).
Proof.
  intros H. rewrite (missing_key_raises_before_any_call_aux env script w key H).
  split; [reflexivity |]. split.
  - unfold events_since. simpl. apply drop_all.
  - intros script' Hk. unfold first_missing_key in Hk.
    destruct (script' !! "execution_id") as [eid |] eqn:Hid; [| discriminate].
    destruct (script' !! "content") as [content |] eqn:Hc; [| discriminate].
    destruct (script' !! "script_name") as [name |] eqn:Hn; [| discriminate].
    destruct (extends_launch env script' eid content name w Hid Hc Hn)
      as [evs Hevs].
    do 2 eexists. apply events_since_app. exact Hevs.
Qed.

Lemma missing_key_raises_before_any_call_witness :
  _execute_script env_ok task_unnamed w0
  = (Raise (Exn KeyError ("'" ++ "script_name" ++ "'")), w0).
Proof.
  apply (proj1 (missing_key_raises_before_any_call env_ok task_unnamed w0
                  "script_name" eq_refl)).
Defined.

Lemma for_each_app {A} (xs ys : list A) (body : A -> M unit) w :
  for_each (xs ++ ys) body w = (for_each xs body ;;; for_each ys body) w.
Proof.
  revert w. induction xs as [| x xs IH]; intros w; simpl.
  - reflexivity.
  - unfold bind. destruct (body x w) as [[[] | e | ] w1]; try reflexivity.
    specialize (IH w1). unfold bind in IH. exact IH.
Qed.

(** A task with a missing key ends the batch: the tasks before it are
    executed and reported in order, nothing of the task itself or of the
    tasks after it is launched or reported, and the poll still returns
    normally. *)
Theorem batch_stops_at_missing_key env w resp d done bad key rest :
  http env w ScriptsReq = (HttpReturns resp, d) ->
  status_code resp = 200 ->
  resp_body resp = JArray (done ++ bad :: rest) ->
  Forall well_formed done ->
  first_missing_key bad = Some key ->
  (forall eid, reports_delivered env eid) ->
  (poll_and_execute_scripts env w).1 = Ok tt
  /\ poll_executes_all env done w.
Proof.
  intros Hh Hst Hbody Hwf Hbad Hdel.
  destruct (for_each_executes env done
              (after_http env ScriptsReq (HttpReturns resp) d w) Hwf Hdel)
    as (w' & Hrun & [evs Hevs] & Hord).
  assert (Hpoll : poll_and_execute_scripts env w = (Ok tt, w')).
  { unfold poll_and_execute_scripts, try_except. unfold bind at 1.
    rewrite (session_request_returns _ _ _ _ _ Hh), Hst. simpl.
    unfold bind at 1. unfold resp_json. rewrite Hbody.
    unfold ret at 1. unfold bind at 1. simpl json_iter. unfold ret at 1.
    rewrite for_each_app. unfold bind at 1. rewrite Hrun.
    simpl for_each. unfold bind at 1.
    rewrite (missing_key_raises_before_any_call_aux env bad w' key Hbad).
    reflexivity. }
  rewrite Hpoll. split; [reflexivity |].
  exists (HttpReturns resp), evs. rewrite Hpoll. simpl. split.
  - apply events_since_app. rewrite Hevs, trace_after_http, <- app_assoc.
    reflexivity.
  - rewrite (events_since_app _ _ _ Hevs) in Hord. exact Hord.
Qed.

Lemma batch_stops_at_missing_key_witness :
  poll_executes_all env_batch_malformed [task1] w0.
Proof.
  refine (proj2 (batch_stops_at_missing_key env_batch_malformed w0
            (Response 200 (JArray [task1; task_unnamed; task2]) "") 0
            [task1] task_unnamed "script_name" [task2] _ _ _ _ _ _)).
  - reflexivity.
  - reflexivity.
  - reflexivity.
  - repeat constructor. exists "e1", "echo ok", "probe". repeat split; reflexivity.
  - reflexivity.
  - intros eid w rc out err. exists ok_response, 0. reflexivity.
Defined.

(** ** What a completed script reports *)

(** After a normal completion whose output is within the caps (50,000
    characters of stdout, 10,000 of stderr, the bounds included), the
    report carries the process's exit code, stdout and stderr unchanged,
    an empty stderr being sent as None.  The exit code is passed on
    whatever its value, so a child killed by signal 1 is reported with the
    exit code -1 that the timeout and failure results also use. *)
Theorem output_within_caps_reported_unchanged
    env script eid content name w d rc out err :
  has_keys script eid content name ->
  proc env w (interpreter_argv env (script_type_of script) content)
  = ProcRuns d rc out err ->
  d <= 300 ->
  Z.of_nat (String.length out) <= 50000 ->
  Z.of_nat (String.length err) <= 10000 ->
  head (report_requests (events_since w (_execute_script env script w).2))
  = Some (ResultReq eid rc out (if truthy err then Some err else None)).
Proof.
  intros Hk Hp Hd Hout Herr.
  pose proof (execute_script_reports env script eid content name w Hk) as Hr.
  cbv zeta in Hr. rewrite Hp in Hr.
  destruct (300 <? d) eqn:E; [apply Z.ltb_lt in E; lia |].
  unfold result_of_run in Hr.
  rewrite (slice_to_short 50000 out Hout), (slice_to_short 10000 err Herr) in Hr.
  destruct (http env _ _).1; rewrite Hr; reflexivity.
Qed.

Lemma output_within_caps_reported_unchanged_witness :
  head (report_requests (events_since w0 (_execute_script env_killed task1 w0).2))
  = Some (ResultReq "e1" (-1) "started" (if truthy "" then Some "" else None)).
Proof.
  apply (output_within_caps_reported_unchanged env_killed task1 "e1" "echo ok"
           "probe" w0 2 (-1) "started" "").
  - repeat split; reflexivity.
  - reflexivity.
  - lia.
  - vm_compute. discriminate.
  - vm_compute. discriminate.
Defined.

(** ** A report that raises *)

(** When the report of a timed-out execution, or of one whose launch
    raised, raises itself, that exception leaves the runner.  When the
    report of a completed execution raises, the runner sends one failure
    report carrying the transport error; it returns normally if that one
    is delivered, and the second exception leaves the runner if not. *)
Theorem failed_report_propagation env script eid content name w :
  has_keys script eid content name ->
  let argv := interpreter_argv env (script_type_of script) content in
  (forall d rc out err msg dt,
     proc env w argv = ProcRuns d rc out err -> 300 < d ->
     http env (advance env 300 (launched argv w)) (result_of_timeout eid)
     = (HttpRaises msg, dt) ->
     (_execute_script env script w).1 = Raise (Exn OtherException msg))
  /\ (forall m msg dt,
        proc env w argv = ProcRaises m ->
        http env (launched argv w) (result_of_failure eid m)
        = (HttpRaises msg, dt) ->
        (_execute_script env script w).1 = Raise (Exn OtherException msg))
  /\ (forall d rc out err msg dt,
        proc env w argv = ProcRuns d rc out err -> d <= 300 ->
        let w1 := advance env d (launched argv w) in
        http env w1 (result_of_run eid rc out err) = (HttpRaises msg, dt) ->
        let w2 := after_http env (result_of_run eid rc out err)
                    (HttpRaises msg) dt w1 in
        (_execute_script env script w).1
        = match (http env w2 (result_of_failure eid msg)).1 with
          | HttpReturns _ => Ok tt
          | HttpRaises msg2 => Raise (Exn OtherException msg2)
          end).
Proof.
  intros (Hid & Hc & Hn) argv. repeat split.
  - intros d rc out err msg dt Hp Hd Hh.
    rewrite (execute_script_timed_out env script eid content name Hid Hc Hn
               w d rc out err Hp Hd).
    unfold bind. fold argv. now rewrite (session_request_raises _ _ _ _ _ Hh).
  - intros m msg dt Hp Hh.
    rewrite (execute_script_launch_raises env script eid content name Hid Hc Hn
               w m Hp).
    unfold bind. fold argv. now rewrite (session_request_raises _ _ _ _ _ Hh).
  - intros d rc out err msg dt Hp Hd w1 Hh w2.
    rewrite (execute_script_completed_report_raises env script eid content name
               Hid Hc Hn w d rc out err msg dt Hp Hd Hh).
    fold argv. fold w1. fold w2. unfold bind, session_request.
    destruct (http env w2 (result_of_failure eid msg)) as [[msg2 | resp] d2];
      reflexivity.
Qed.

Lemma failed_report_propagation_witness :
  (_execute_script env_hangs_down task1 w0).1
  = Raise (Exn OtherException "Connection refused").
Proof.
  refine (proj1 (failed_report_propagation env_hangs_down task1 "e1" "echo ok"
                   "probe" w0 _)
            600 0 "partial output" "partial errors" "Connection refused" 0 _ _ _).
  - repeat split; reflexivity.
  - reflexivity.
  - lia.
  - reflexivity.
Defined.

(** ** The metrics duty *)

Lemma collect_events env w :
  match sample env w with
  | (SampleRaises _, _) =>
      events_since w (collect_and_push_metrics env w).2 = [ESample (clock w)]
  | (SampleReturns s, d) =>
      exists o,
        events_since w (collect_and_push_metrics env w).2
        = [ESample (clock w);
           EHttp (clock w + d)
             (MetricsReq (build_metrics env s (clock w + d))) o]
  end.
Proof.
  destruct (sample env w) as [[msg | s] d] eqn:Hs;
    unfold collect_and_push_metrics, try_except; unfold bind at 1;
    unfold psutil_sample; rewrite Hs; cbv iota beta zeta.
  - apply events_since_app. simpl. rewrite trace_advance. reflexivity.
  - set (w1 := advance env d (log (ESample (clock w)) w)).
    assert (Hc : clock w1 = clock w + d)
      by (unfold w1; rewrite clock_advance; reflexivity).
    assert (Ht : trace w1 = (trace w ++ [ESample (clock w)])%list)
      by (unfold w1; rewrite trace_advance; reflexivity).
    unfold bind at 1. unfold time_time at 1. cbv iota beta zeta. rewrite Hc.
    set (req := MetricsReq (build_metrics env s (clock w + d))).
    exists (http env w1 req).1.
    apply events_since_app.
    pose proof (trace_send_report env req w1) as T.
    rewrite Ht, Hc in T. unfold bind in T |- *.
    destruct (session_request env req w1) as [[r | e | ] w2]; simpl in *;
      try destruct (is_Exception e); simpl;
      rewrite T, <- app_assoc; reflexivity.
Qed.

(** When collecting the sample raises, nothing is pushed: the metrics duty
    makes no HTTP call.  When it returns, exactly one metrics request is
    sent, built from that sample, with the uptime read from the clock
    after the collection has returned.  The duty returns normally in both
    cases, whatever the answer to the push. *)
Theorem metrics_pushed_after_sample env w :
  (collect_and_push_metrics env w).1 = Ok tt
  /\ match sample env w with
     | (SampleRaises _, _) =>
         events_since w (collect_and_push_metrics env w).2 = [ESample (clock w)]
     | (SampleReturns s, d) =>
         exists o,
           events_since w (collect_and_push_metrics env w).2
           = [ESample (clock w);
              EHttp (clock w + d)
                (MetricsReq (build_metrics env s (clock w + d))) o]
     end.
Proof.
  split.
  - destruct (total_collect_and_push_metrics env w) as ([] & w' & H).
    now rewrite H.
  - apply collect_events.
Qed.


(** ** The calls of one iteration, duty by duty *)

Lemma appends_refl p w : appends p w w.
Proof. exists []. split; [now rewrite app_nil_r | reflexivity]. Qed.

Lemma appends_trans p w1 w2 w3 :
  appends p w1 w2 -> appends p w2 w3 -> appends p w1 w3.
Proof.
  intros (e1 & H1 & P1) (e2 & H2 & P2). exists (e1 ++ e2)%list. split.
  - rewrite H2, H1, <- app_assoc. reflexivity.
  - rewrite forallb_app, P1, P2. reflexivity.
Qed.

Lemma appends_weaken (p q : event -> bool) w w' :
  (forall e, p e = true -> q e = true) -> appends p w w' -> appends q w w'.
Proof.
  intros Hpq (evs & H & P). exists evs. split; [exact H |].
  apply forallb_forall. intros e He.
  apply Hpq. rewrite forallb_forall in P. apply P, He.
Qed.

Lemma appends_events p w w' :
  appends p w w' -> forallb p (events_since w w') = true.
Proof. intros (evs & H & P). now rewrite (events_since_app w w' evs H). Qed.

Lemma count_calls_app p (a b : list event) :
  count_calls p (a ++ b) = (count_calls p a + count_calls p b)%nat.
Proof. unfold count_calls. now rewrite List.filter_app, length_app. Qed.

Lemma count_calls_none (p q : event -> bool) evs :
  (forall e, p e = true -> q e = false) ->
  forallb p evs = true -> count_calls q evs = O.
Proof.
  intros Hpq. induction evs as [| e evs IH]; simpl; [reflexivity |].
  intros H. apply andb_prop in H as [He Hevs].
  unfold count_calls in *. simpl. rewrite (Hpq e He). apply IH, Hevs.
Qed.

(** The heartbeat duty is one call, made at the clock reading at which the
    duty starts. *)
Lemma heartbeat_events env w :
  exists o,
    trace (heartbeat env w).2
    = (trace w
       ++ [EHttp (clock w) (HeartbeatReq VERSION (clock w - boot_time env)) o])%list.
Proof.
  unfold heartbeat, try_except, bind, time_time, session_request.
  destruct (http env w _) as [[msg | resp] d]; simpl;
    rewrite trace_advance; eexists; reflexivity.
Qed.

(** The script runner launches and reports, nothing else. *)
Lemma execute_script_appends env script :
  respects (appends is_runner_event) (_execute_script env script).
Proof.
  intros w. destruct (first_missing_key script) as [key |] eqn:Hk.
  - rewrite (missing_key_raises_before_any_call_aux env script w key Hk).
    apply appends_refl.
  - unfold first_missing_key in Hk.
    destruct (script !! "execution_id") as [eid |] eqn:Hid; [| discriminate].
    destruct (script !! "content") as [content |] eqn:Hc; [| discriminate].
    destruct (script !! "script_name") as [name |] eqn:Hn; [| discriminate].
    destruct (proc env w (interpreter_argv env (script_type_of script) content))
      as [msg | d rc out err] eqn:Hp.
    + rewrite (execute_script_launch_raises env script eid content name Hid Hc Hn w msg Hp).
      eexists. rewrite trace_send_report. unfold launched. simpl.
      rewrite <- app_assoc. split; reflexivity.
    + destruct (Z.lt_ge_cases 300 d) as [Hd | Hd].
      * rewrite (execute_script_timed_out env script eid content name Hid Hc Hn
                   w d rc out err Hp Hd).
        eexists. rewrite trace_send_report, trace_advance. unfold launched. simpl.
        rewrite <- app_assoc. split; reflexivity.
      * destruct (http env
                    (advance env d
                       (launched (interpreter_argv env (script_type_of script) content) w))
                    (result_of_run eid rc out err)) as [[msg | resp] dt] eqn:Hh.
        -- rewrite (execute_script_completed_report_raises env script eid content name
                      Hid Hc Hn w d rc out err msg dt Hp Hd Hh).
           eexists. rewrite trace_send_report, trace_after_http, trace_advance.
           unfold launched. simpl. rewrite <- !app_assoc. split; reflexivity.
        -- rewrite (execute_script_completed env script eid content name
                      Hid Hc Hn w d rc out err resp dt Hp Hd Hh).
           eexists. simpl. rewrite trace_after_http, trace_advance.
           unfold launched. simpl. rewrite <- !app_assoc. split; reflexivity.
Qed.

(** The script-poll duty is one scripts request followed by launches and
    reports. *)
Lemma poll_events env w :
  exists o evs,
    trace (poll_and_execute_scripts env w).2
    = (trace w ++ EHttp (clock w) ScriptsReq o :: evs)%list
    /\ forallb is_runner_event evs = true.
Proof.
  assert (Hrest : appends is_runner_event (session_request env ScriptsReq w).2
                    (poll_and_execute_scripts env w).2).
  { unfold poll_and_execute_scripts.
    apply (respects_after_first (appends is_runner_event)
             (appends_refl _) (appends_trans _)).
    - intros resp. destruct (negb (status_code resp =? 200)).
      + intros w'. apply appends_refl.
      + apply (respects_bind _ (appends_trans _)).
        * intros w'. unfold resp_json.
          destruct (resp_body resp); apply appends_refl.
        * intros j. apply (respects_bind _ (appends_trans _)).
          -- intros w'. unfold json_iter. destruct j; try apply appends_refl.
             case_decide; apply appends_refl.
          -- intros items.
             apply (respects_for_each _ (appends_refl _) (appends_trans _)).
             apply execute_script_appends.
    - repeat constructor. simpl. intros _ w'. apply appends_refl. }
  destruct Hrest as (evs & Hevs & Hp).
  exists (http env w ScriptsReq).1, evs. split; [| exact Hp].
  rewrite Hevs. unfold session_request.
  destruct (http env w ScriptsReq) as [[msg | resp] d]; simpl;
    rewrite trace_advance; simpl; rewrite <- app_assoc; reflexivity.
Qed.

(** The metrics duty is one collection, followed by at most one push. *)
Lemma collect_profile env w :
  exists t evs,
    trace (collect_and_push_metrics env w).2
    = (trace w ++ ESample t :: evs)%list
    /\ forallb is_metrics_event evs = true
    /\ count_calls is_metrics_collection evs = O.
Proof.
  pose proof (collect_events env w) as H.
  pose proof (extends_collect_and_push_metrics env w) as Hx.
  rewrite (extends_events _ _ Hx).
  destruct (sample env w) as [[msg | s] d].
  - rewrite H. do 2 eexists. split; [reflexivity |]. split; reflexivity.
  - destruct H as [o H]. rewrite H. do 2 eexists.
    split; [reflexivity |]. split; reflexivity.
Qed.

(** The calls of one iteration: each duty that is due contributes its own
    calls, once; every heartbeat call of the iteration is made at the
    clock reading at which the iteration starts. *)
Lemma tick_profile env s w :
  let evs := events_since w (tick_world env s w) in
  extends w (tick_world env s w)
  /\ count_calls is_heartbeat_call evs
     = (if clock w - last_heartbeat s >=? HEARTBEAT_INTERVAL then 1 else 0)%nat
  /\ count_calls is_metrics_collection evs
     = (if clock w - last_metrics s >=? METRICS_INTERVAL then 1 else 0)%nat
  /\ count_calls is_script_poll evs
     = (if clock w - last_script_poll s >=? SCRIPT_POLL_INTERVAL then 1 else 0)%nat
  /\ forallb (heartbeat_before (clock w + 1)) evs = true.
Proof.
  unfold tick_world. cbv zeta.
  set (b1 := clock w - last_heartbeat s >=? HEARTBEAT_INTERVAL).
  set (b2 := clock w - last_metrics s >=? METRICS_INTERVAL).
  set (b3 := clock w - last_script_poll s >=? SCRIPT_POLL_INTERVAL).
  set (w1 := if b1 then (heartbeat env w).2 else w).
  set (w2 := if b2 then (collect_and_push_metrics env w1).2 else w1).
  set (w3 := if b3 then (poll_and_execute_scripts env w2).2 else w2).
  assert (H1 : exists ev1,
             trace w1 = (trace w ++ ev1)%list
             /\ count_calls is_heartbeat_call ev1 = (if b1 then 1 else 0)%nat
             /\ count_calls is_metrics_collection ev1 = O
             /\ count_calls is_script_poll ev1 = O
             /\ forallb (heartbeat_before (clock w + 1)) ev1 = true).
  { unfold w1. destruct b1.
    - destruct (heartbeat_events env w) as [o Ho]. eexists. split; [exact Ho |].
      repeat split; try reflexivity.
      simpl. rewrite andb_true_r. apply Z.ltb_lt. lia.
    - exists []. rewrite app_nil_r. repeat split; reflexivity. }
  assert (H2 : exists ev2,
             trace w2 = (trace w1 ++ ev2)%list
             /\ count_calls is_heartbeat_call ev2 = O
             /\ count_calls is_metrics_collection ev2 = (if b2 then 1 else 0)%nat
             /\ count_calls is_script_poll ev2 = O
             /\ forallb (heartbeat_before (clock w + 1)) ev2 = true).
  { unfold w2. destruct b2.
    - destruct (collect_profile env w1) as (t & evs & Ht & Hf & Hc).
      exists (ESample t :: evs). split; [exact Ht |].
      assert (Hall : forallb is_metrics_event (ESample t :: evs) = true)
        by (simpl; exact Hf).
      split; [apply (count_calls_none is_metrics_event); [| exact Hall];
              intros [? [] ?| | | |]; simpl; congruence |].
      split; [unfold count_calls in *; simpl; now rewrite Hc |].
      split; [apply (count_calls_none is_metrics_event); [| exact Hall];
              intros [? [] ?| | | |]; simpl; congruence |].
      apply forallb_forall. intros e He.
      rewrite forallb_forall in Hall. specialize (Hall e He).
      destruct e as [? [] ?| | | |]; simpl in *; congruence.
    - exists []. rewrite app_nil_r. repeat split; reflexivity. }
  assert (H3 : exists ev3,
             trace w3 = (trace w2 ++ ev3)%list
             /\ count_calls is_heartbeat_call ev3 = O
             /\ count_calls is_metrics_collection ev3 = O
             /\ count_calls is_script_poll ev3 = (if b3 then 1 else 0)%nat
             /\ forallb (heartbeat_before (clock w + 1)) ev3 = true).
  { unfold w3. destruct b3.
    - destruct (poll_events env w2) as (o & evs & Ht & Hf).
      exists (EHttp (clock w2) ScriptsReq o :: evs). split; [exact Ht |].
      assert (Hall : forallb is_poll_event
                       (EHttp (clock w2) ScriptsReq o :: evs) = true).
      { simpl. apply forallb_forall. intros e He.
        rewrite forallb_forall in Hf. specialize (Hf e He).
        destruct e as [? [] ?| | | |]; simpl in *; congruence. }
      split; [apply (count_calls_none is_poll_event); [| exact Hall];
              intros [? [] ?| | | |]; simpl; congruence |].
      split; [apply (count_calls_none is_poll_event); [| exact Hall];
              intros [? [] ?| | | |]; simpl; congruence |].
      split.
      + unfold count_calls. simpl. f_equal.
        apply (count_calls_none is_runner_event); [| exact Hf].
        intros [? [] ?| | | |]; simpl; congruence.
      + apply forallb_forall. intros e He.
        rewrite forallb_forall in Hall. specialize (Hall e He).
        destruct e as [? [] ?| | | |]; simpl in *; congruence.
    - exists []. rewrite app_nil_r. repeat split; reflexivity. }
  destruct H1 as (ev1 & T1 & A1 & B1 & C1 & D1).
  destruct H2 as (ev2 & T2 & A2 & B2 & C2 & D2).
  destruct H3 as (ev3 & T3 & A3 & B3 & C3 & D3).
  assert (T : trace w3 = (trace w ++ ev1 ++ ev2 ++ ev3)%list)
    by (rewrite T3, T2, T1, <- !app_assoc; reflexivity).
  split; [eexists; exact T |].
  rewrite (events_since_app _ _ _ T).
  rewrite !count_calls_app, !forallb_app.
  rewrite A1, A2, A3, B1, B2, B3, C1, C2, C3, D1, D2, D3.
  repeat split; destruct b1, b2, b3; reflexivity.
Qed.

(** ** Each duty once per iteration, and not again within its interval *)

(** In one iteration of the loop body each duty runs exactly once when it
    is due and not at all when it is not: one heartbeat request, one
    metrics collection, one scripts request.  Hence a duty that ran in an
    iteration is not run by a later iteration, started with the timestamps
    the first one returned, that begins less than the duty's interval
    after the first one read the clock. *)
Theorem duties_once_per_iteration env s w :
  let evs := events_since w (tick env s w).2 in
  (count_calls is_heartbeat_call evs
   = (if clock w - last_heartbeat s >=? HEARTBEAT_INTERVAL then 1 else 0)%nat
   /\ count_calls is_metrics_collection evs
      = (if clock w - last_metrics s >=? METRICS_INTERVAL then 1 else 0)%nat
   /\ count_calls is_script_poll evs
      = (if clock w - last_script_poll s >=? SCRIPT_POLL_INTERVAL then 1 else 0)%nat)
  /\ (forall s' w2,
        (tick env s w).1 = Ok s' ->
        clock w - last_heartbeat s >= HEARTBEAT_INTERVAL ->
        clock w2 - clock w < HEARTBEAT_INTERVAL ->
        count_calls is_heartbeat_call (events_since w2 (tick env s' w2).2) = O)
  /\ (forall s' w2,
        (tick env s w).1 = Ok s' ->
        clock w - last_metrics s >= METRICS_INTERVAL ->
        clock w2 - clock w < METRICS_INTERVAL ->
        count_calls is_metrics_collection (events_since w2 (tick env s' w2).2) = O)
  /\ (forall s' w2,
        (tick env s w).1 = Ok s' ->
        clock w - last_script_poll s >= SCRIPT_POLL_INTERVAL ->
        clock w2 - clock w < SCRIPT_POLL_INTERVAL ->
        count_calls is_script_poll (events_since w2 (tick env s' w2).2) = O)
  /\ (running w = true ->
      forall fuel,
        run_loop env (S fuel) s w
        = (time_sleep env 1 ;;;
           run_loop env fuel (stamp (clock w) s)) (tick env s w).2).
Proof.
  cbv zeta. rewrite !tick_spec. cbn [fst snd].
  destruct (tick_profile env s w) as (_ & H1 & H2 & H3 & _).
  split; [auto |].
  split; [| split; [| split]].
  4: { intros Hrun fuel. cbn [run_loop]. rewrite Hrun.
       unfold bind at 1. rewrite tick_spec. reflexivity. }
  all: intros s' w2 [= <-] Hdue Hsoon; rewrite tick_spec; cbn [snd];
    destruct (tick_profile env (stamp (clock w) s) w2) as (_ & K1 & K2 & K3 & _);
    first [rewrite K1 | rewrite K2 | rewrite K3];
    unfold stamp; simpl;
    match goal with
    | |- context [?a - ?l >=? ?b] =>
        replace (a - l >=? b) with true by (symmetry; apply Z.geb_le; lia)
    end;
    match goal with
    | |- context [?a >=? ?b] =>
        replace (a >=? b) with false; [reflexivity |];
        symmetry; rewrite Z.geb_leb; apply Z.leb_gt; lia
    end.
Qed.

Lemma duties_once_per_iteration_witness :
  count_calls is_script_poll
    (events_since (mkWorld (clock w0 + 9) true None [])
       (tick env_ok (stamp (clock w0) (Schedule 0 0 0))
          (mkWorld (clock w0 + 9) true None [])).2) = O.
Proof.
  refine (proj1 (proj2 (proj2 (proj2
    (duties_once_per_iteration env_ok (Schedule 0 0 0) w0))))
    (stamp (clock w0) (Schedule 0 0 0))
    (mkWorld (clock w0 + 9) true None []) _ _ _).
  - apply (f_equal fst (tick_spec env_ok (Schedule 0 0 0) w0)).
  - vm_compute. discriminate.
  - vm_compute. reflexivity.
Defined.

(** ** The agent_id after registration *)

Lemma same_agent_id_run_loop env fuel s :
  respects same_agent_id (run_loop env fuel s).
Proof.
  apply respects_run_loop; unfold respects, same_agent_id.
  - reflexivity.
  - intros w1 w2 w3 H1 H2. congruence.
  - intros r w. unfold session_request.
    destruct (http env w r) as [[msg | resp] d]; simpl;
      now rewrite agent_id_advance.
  - intros argv w. unfold subprocess_run.
    destruct (proc env w argv) as [msg | d rc out err]; simpl; [reflexivity |].
    destruct (300 <? d); simpl; now rewrite agent_id_advance.
  - intros w. unfold psutil_sample.
    destruct (sample env w) as [[msg | smp] d]; simpl;
      now rewrite agent_id_advance.
  - intros d _ w. simpl. now rewrite agent_id_advance.
Qed.

(** The loop and its duties never assign agent_id: after a run it is what
    the accepted register call found under agent_id, the first call if it
    was accepted, else the retry; a register call that is not accepted
    leaves it as it was. *)
Theorem agent_id_set_by_registration_only env fuel w :
  (forall s w', agent_id (run_loop env fuel s w').2 = agent_id w')
  /\ (forall w',
        accepted (http env w' (register_request env)).1 = false ->
        agent_id (register env w').2 = agent_id w')
  /\ agent_id (run env fuel w).2
     = let o1 := (http env w (register_request env)).1 in
       let w2 := (time_sleep env 30 (register env w).2).2 in
       let o2 := (http env w2 (register_request env)).1 in
       if accepted o1 then parsed_agent_id o1
       else if accepted o2 then parsed_agent_id o2
       else agent_id w.
Proof.
  assert (Hloop : forall s w', agent_id (run_loop env fuel s w').2 = agent_id w')
    by (intros s w'; apply same_agent_id_run_loop).
  assert (Hreg : forall w',
             agent_id (registered_world env w')
             = if accepted (http env w' (register_request env)).1
               then parsed_agent_id (http env w' (register_request env)).1
               else agent_id w').
  { intros w'. unfold registered_world.
    destruct (http env w' (register_request env)) as [o d]. simpl.
    destruct (accepted o); [reflexivity |].
    unfold after_http. now rewrite agent_id_advance. }
  split; [exact Hloop |]. split.
  - intros w' Ha. rewrite register_spec. simpl. now rewrite Hreg, Ha.
  - rewrite run_unfold, register_spec. cbv zeta.
    change (time_sleep env 30 (Ok (accepted (http env w (register_request env)).1),
                               registered_world env w).2).2
      with (advance env 30
              (log (ESleep (clock (registered_world env w)) 30)
                 (registered_world env w))).
    destruct (accepted (http env w (register_request env)).1) eqn:A1.
    + now rewrite Hloop, Hreg, A1.
    + set (w2 := advance env 30
                   (log (ESleep (clock (registered_world env w)) 30)
                      (registered_world env w))).
      assert (H2 : agent_id w2 = agent_id w)
        by (unfold w2; rewrite agent_id_advance; cbn [log agent_id];
            now rewrite Hreg, A1).
      destruct (accepted (http env w2 (register_request env)).1) eqn:A2.
      * now rewrite Hloop, Hreg, A2.
      * cbn [snd log agent_id]. now rewrite Hreg, A2.
Qed.

Lemma agent_id_set_by_registration_only_witness :
  agent_id (register env_down w0).2 = agent_id w0.
Proof.
  apply (proj1 (proj2 (agent_id_set_by_registration_only env_down 0 w0)) w0).
  reflexivity.
Defined.

(** ** Behaviour depends on elapsed time only *)

(** Apart from the first iteration, the agent looks at differences of
    clock readings only: when the clock reads at least 30 at the start, a
    run started [k] seconds later, against collaborators that answer [k]
    seconds later what they answered before, ends in the same way and
    makes the same calls, each [k] seconds later. *)
Theorem run_translation_invariant k env env' fuel w :
  shifted k env env' ->
  nonneg_durations env ->
  0 <= k ->
  30 <= clock w ->
  (run env' fuel (shift_world k w)).1 = (run env fuel w).1
  /\ trace (run env' fuel (shift_world k w)).2
     = map (shift_event k) (trace (run env fuel w).2)
  /\ agent_id (run env' fuel (shift_world k w)).2 = agent_id (run env fuel w).2
  /\ clock (run env' fuel (shift_world k w)).2 = clock (run env fuel w).2 + k.
Proof.
  intros Hsh Hnn Hk Hc.
  rewrite (run_shift k env env' Hsh fuel w Hnn Hk Hc).
  repeat split; reflexivity.
Qed.

Lemma run_translation_invariant_witness :
  trace (run (reference_env_sampling 1 (30 + 12)) 40
           (shift_world 12 (initial_world 30))).2
  = map (shift_event 12)
        (trace (run (reference_env_sampling 1 30) 40 (initial_world 30)).2).
Proof.
  refine (proj1 (proj2 (run_translation_invariant 12
            (reference_env_sampling 1 30) (reference_env_sampling 1 (30 + 12))
            40 (initial_world 30) _ _ _ _))).
  - apply reference_env_shifted.
  - apply reference_env_nonneg. lia.
  - lia.
  - vm_compute. discriminate.
Defined.

(** ** How long a script holds up its report *)

(** Whatever the script does, its result is handed to the session at most
    300 seconds after its interpreter was launched: at once when the launch
    raises, when the child ends if that is within 300 seconds, and after
    exactly 300 seconds otherwise. *)
Theorem result_reported_within_timeout env script eid content name w :
  has_keys script eid content name ->
  let argv := interpreter_argv env (script_type_of script) content in
  (forall d rc out err, proc env w argv = ProcRuns d rc out err -> 0 <= d) ->
  exists t' o evs,
    events_since w (_execute_script env script w).2
    = ESubprocess (clock w) argv 300
      :: EHttp t' (report_for_behaviour eid (proc env w argv)) o :: evs
    /\ clock w <= t' <= clock w + 300
    /\ t' = clock w + match proc env w argv with
                      | ProcRaises _ => 0
                      | ProcRuns d _ _ _ => Z.min d 300
                      end.
Proof.
  intros (Hid & Hc & Hn) argv Hnn.
  destruct (proc env w argv) as [msg | d rc out err] eqn:Hp.
  - rewrite (execute_script_launch_raises env script eid content name Hid Hc Hn w msg Hp).
    do 3 eexists. split; [| split; [| reflexivity]]; [| lia].
    apply events_since_app. rewrite trace_send_report. unfold launched. simpl.
    rewrite <- app_assoc, Z.add_0_r. reflexivity.
  - specialize (Hnn d rc out err eq_refl). simpl.
    destruct (Z.lt_ge_cases 300 d) as [Hd | Hd].
    + rewrite (execute_script_timed_out env script eid content name Hid Hc Hn
                 w d rc out err Hp Hd).
      replace (300 <? d) with true by (symmetry; apply Z.ltb_lt; lia).
      do 3 eexists. split; [| split; [| reflexivity]]; [| lia].
      apply events_since_app.
      rewrite trace_send_report, trace_advance, clock_advance.
      unfold launched. simpl. rewrite <- app_assoc.
      replace (Z.min d 300) with 300 by lia. reflexivity.
    + replace (300 <? d) with false by (symmetry; apply Z.ltb_ge; lia).
      replace (Z.min d 300) with d by lia.
      destruct (http env (advance env d (launched argv w))
                  (result_of_run eid rc out err)) as [[msg | resp] dt] eqn:Hh.
      * rewrite (execute_script_completed_report_raises env script eid content name
                   Hid Hc Hn w d rc out err msg dt Hp Hd Hh).
        do 3 eexists. split; [| split; [| reflexivity]]; [| lia].
        apply events_since_app.
        rewrite trace_send_report, trace_after_http, trace_advance, clock_advance.
        unfold launched. simpl. rewrite <- !app_assoc. reflexivity.
      * rewrite (execute_script_completed env script eid content name
                   Hid Hc Hn w d rc out err resp dt Hp Hd Hh).
        exists (clock w + d), (HttpReturns resp), [].
        split; [| split; [| reflexivity]]; [| lia].
        apply events_since_app. simpl.
        rewrite trace_after_http, trace_advance, clock_advance.
        unfold launched. simpl. rewrite <- !app_assoc. reflexivity.
Qed.

Lemma result_reported_within_timeout_witness :
  exists t' o evs,
    events_since w0 (_execute_script env_hangs task1 w0).2
    = ESubprocess (clock w0)
        (interpreter_argv env_hangs (script_type_of task1) "echo ok") 300
      :: EHttp t'
           (report_for_behaviour "e1"
              (proc env_hangs w0
                 (interpreter_argv env_hangs (script_type_of task1) "echo ok")))
           o :: evs
    /\ clock w0 <= t' <= clock w0 + 300
    /\ t' = clock w0
            + match proc env_hangs w0
                      (interpreter_argv env_hangs (script_type_of task1) "echo ok")
              with
              | ProcRaises _ => 0
              | ProcRuns d _ _ _ => Z.min d 300
              end.
Proof.
  apply (result_reported_within_timeout env_hangs task1 "e1" "echo ok" "probe" w0).
  - repeat split; reflexivity.
  - intros d rc out err H. inversion H. lia.
Defined.

(** ** The order of the duties within an iteration *)

(** The calls of one iteration of the loop body come in the order
    heartbeat, metrics, script poll: first the heartbeat request, then the
    metrics collection and push, then the scripts request with its
    launches and reports; and the loop's iteration is that body followed
    by the one-second sleep. *)
Theorem duties_in_fixed_order env s w :
  (exists hb ms ps,
     events_since w (tick env s w).2 = (hb ++ ms ++ ps)%list
     /\ forallb is_heartbeat_call hb = true
     /\ forallb is_metrics_event ms = true
     /\ forallb is_poll_event ps = true)
  /\ (running w = true ->
      forall fuel,
        exists s',
          (tick env s w).1 = Ok s'
          /\ run_loop env (S fuel) s w
             = (time_sleep env 1 ;;; run_loop env fuel s') (tick env s w).2).
Proof.
  split; cycle 1.
  { intros Hrun fuel. exists (stamp (clock w) s).
    split; [now rewrite tick_spec |].
    cbn [run_loop]. rewrite Hrun. unfold bind at 1. rewrite tick_spec.
    reflexivity. }
  rewrite tick_spec. cbn [snd].
  unfold tick_world. cbv zeta.
  set (b1 := clock w - last_heartbeat s >=? HEARTBEAT_INTERVAL).
  set (b2 := clock w - last_metrics s >=? METRICS_INTERVAL).
  set (b3 := clock w - last_script_poll s >=? SCRIPT_POLL_INTERVAL).
  set (w1 := if b1 then (heartbeat env w).2 else w).
  set (w2 := if b2 then (collect_and_push_metrics env w1).2 else w1).
  set (w3 := if b3 then (poll_and_execute_scripts env w2).2 else w2).
  assert (H1 : appends is_heartbeat_call w w1).
  { unfold w1. destruct b1; [| apply appends_refl].
    destruct (heartbeat_events env w) as [o Ho]. eexists. split; [exact Ho |].
    reflexivity. }
  assert (H2 : appends is_metrics_event w1 w2).
  { unfold w2. destruct b2; [| apply appends_refl].
    destruct (collect_profile env w1) as (t & evs & Ht & Hf & _).
    exists (ESample t :: evs). split; [exact Ht | exact Hf]. }
  assert (H3 : appends is_poll_event w2 w3).
  { unfold w3. destruct b3; [| apply appends_refl].
    destruct (poll_events env w2) as (o & evs & Ht & Hf).
    exists (EHttp (clock w2) ScriptsReq o :: evs). split; [exact Ht |].
    simpl. apply forallb_forall. intros e He.
    rewrite forallb_forall in Hf. specialize (Hf e He).
    destruct e as [? [] ?| | | |]; simpl in *; congruence. }
  destruct H1 as (hb & T1 & P1), H2 as (ms & T2 & P2), H3 as (ps & T3 & P3).
  exists hb, ms, ps. split; [| auto].
  apply events_since_app. rewrite T3, T2, T1, <- !app_assoc. reflexivity.
Qed.

Lemma duties_in_fixed_order_witness :
  exists s',
    (tick env_ok (Schedule 0 0 0) w0).1 = Ok s'
    /\ run_loop env_ok 1 (Schedule 0 0 0) w0
       = (time_sleep env_ok 1 ;;; run_loop env_ok 0 s')
           (tick env_ok (Schedule 0 0 0) w0).2.
Proof.
  apply (proj2 (duties_in_fixed_order env_ok (Schedule 0 0 0) w0)).
  reflexivity.
Defined.
